(** * Verification of provider-aws: the ElastiCache claim configurator and
      the Cognito user-pool-client conversions.

    Two Go files are embedded:
    - [pkg/controller/cache/claim.go] (module [Cache]): the resource
      configurator [ConfigureReplicationGroup] and the engine-version
      resolver [resolveAWSClassInstanceValues];
    - [pkg/controller/cognitoidentityprovider/userpoolclient/zz_conversions.go]
      (module [UserPoolClient]): the generated conversions between the
      managed resource and the SDK's request and response shapes.

    Conventions of the embedding.
    - A Go pointer [*T] is [option T]: [None] is [nil].  A pointer is only
      ever compared with [nil] or dereferenced by the embedded code, so the
      pointee's value is all that can be observed.
    - A Go slice [[]*string] is [option (list (option string))]: [None] is
      the nil slice, [Some []] the empty non-nil slice.
    - A Go [error] is [option error]: [None] is the nil error.
    - A function that can hit a nil dereference returns in [option]:
      [None] is the runtime panic. *)

From Stdlib Require Import ZArith.
From stdpp Require Import base tactics option list gmap strings.

Local Open Scope string_scope.

(** ** Go runtime and library values shared by both files *)

Module Go.

(** Error values.  [Errorf] is what [errors.Errorf] of github.com/pkg/errors
    returns once the format is expanded; [Wrap] is [errors.Wrap] applied to
    a non-nil error; [AwsErr] is a value implementing the SDK's
    [awserr.Error] interface, with what its Code and Message methods
    return. *)
Inductive error : Type :=
| Errorf (msg : string)
| Wrap (cause : error) (msg : string)
| AwsErr (code message : string).

(** [errors.Wrap(err, msg)]: nil stays nil. *)
Definition errors_Wrap (err : option error) (msg : string) : option error :=
  match err with
  | None => None
  | Some e => Some (Wrap e msg)
  end.

(** [aws.StringValue]: the pointee, or the empty string for nil. *)
Definition StringValue (p : option string) : string :=
  match p with
  | Some s => s
  | None => ""
  end.

(** [strings.HasPrefix s prefix]. *)
Definition HasPrefix (s pre : string) : bool := String.prefix pre s.

(** [time.Time], only ever copied by the embedded code. *)
Inductive Time : Type := Instant (unixNano : Z).

End Go.

Import Go.

(** ** API types used by [pkg/controller/cache/claim.go]

    The packages declaring these types are not part of the two embedded
    files; each struct is given with the fields the configurator reads or
    writes.  One module per Go struct keeps the Go field names. *)

Module runtimev1alpha1.

Definition ReclaimPolicy : Type := string.
Definition ReclaimDelete : ReclaimPolicy := "Delete".
Definition ReclaimRetain : ReclaimPolicy := "Retain".

Module SecretReference.
Record t : Type := mk { Name : string; Namespace : string }.
End SecretReference.

(** The fields of a managed resource's spec common to all kinds. *)
Module ResourceSpec.
Record t : Type := mk {
  WriteConnectionSecretToReference : option SecretReference.t;
  ReclaimPolicy : runtimev1alpha1.ReclaimPolicy
}.
End ResourceSpec.

(** The fields of a class's spec template common to all kinds. *)
Module ClassSpecTemplate.
Record t : Type := mk {
  WriteConnectionSecretsToNamespace : string;
  ReclaimPolicy : runtimev1alpha1.ReclaimPolicy
}.
End ClassSpecTemplate.

End runtimev1alpha1.

Module cachev1alpha1.

Module RedisClusterSpec.
Record t : Type := mk { EngineVersion : string }.
End RedisClusterSpec.

(** The RedisCluster claim: object name and UID, and its spec. *)
Module RedisCluster.
Record t : Type := mk { Name : string; UID : string; Spec : RedisClusterSpec.t }.
End RedisCluster.

End cachev1alpha1.

Module v1beta1.
Import runtimev1alpha1.

(** [ReplicationGroupParameters]: the engine version, and all the other
    provider parameters, which the configurator copies as one block
    ([Rest] is their type). *)
Module ReplicationGroupParameters.
Record t (Rest : Type) : Type := mk {
  EngineVersion : option string;
  Others : Rest
}.
Arguments mk {Rest}.
Arguments EngineVersion {Rest}.
Arguments Others {Rest}.

(** The assignment [spec.EngineVersion = v]. *)
Definition set_EngineVersion {Rest} (v : option string) (p : t Rest) : t Rest :=
  mk v (Others p).
End ReplicationGroupParameters.

(** [ReplicationGroupSpec] embeds [ResourceSpec]. *)
Module ReplicationGroupSpec.
Record t (Rest : Type) : Type := mk {
  ResourceSpec : ResourceSpec.t;
  ForProvider : ReplicationGroupParameters.t Rest
}.
Arguments mk {Rest}.
Arguments ResourceSpec {Rest}.
Arguments ForProvider {Rest}.
End ReplicationGroupSpec.

(** [ReplicationGroupClassSpecTemplate] embeds [ClassSpecTemplate]. *)
Module ReplicationGroupClassSpecTemplate.
Record t (Rest : Type) : Type := mk {
  ClassSpecTemplate : ClassSpecTemplate.t;
  ForProvider : ReplicationGroupParameters.t Rest
}.
Arguments mk {Rest}.
Arguments ClassSpecTemplate {Rest}.
Arguments ForProvider {Rest}.
End ReplicationGroupClassSpecTemplate.

Module ReplicationGroupClass.
Record t (Rest : Type) : Type := mk {
  Name : string;
  SpecTemplate : ReplicationGroupClassSpecTemplate.t Rest
}.
Arguments mk {Rest}.
Arguments Name {Rest}.
Arguments SpecTemplate {Rest}.
End ReplicationGroupClass.

(** The managed resource; [Status] is the observed state, of type [Obs]. *)
Module ReplicationGroup.
Record t (Rest Obs : Type) : Type := mk {
  Name : string;
  Spec : ReplicationGroupSpec.t Rest;
  Status : Obs
}.
Arguments mk {Rest Obs}.
Arguments Name {Rest Obs}.
Arguments Spec {Rest Obs}.
Arguments Status {Rest Obs}.

(** The assignment [rg.Spec = s]. *)
Definition set_Spec {Rest Obs} (s : ReplicationGroupSpec.t Rest) (rg : t Rest Obs) : t Rest Obs :=
  mk (Name rg) s (Status rg).
End ReplicationGroup.

End v1beta1.

(** ** API and SDK types used by [zz_conversions.go]

    [svcapitypes] is the resource's own API package and [svcsdk] the AWS
    SDK's cognitoidentityprovider package.  Each struct is given with the
    fields the conversions read or write; [*int64] is [option Z] (the
    values are only copied, never computed with). *)

(** [[]*string]. *)
Definition StringSlice : Type := option (list (option string)).

Module metav1.
(** [metav1.Time] embeds [time.Time]. *)
Module Time.
Record t : Type := mk { Time : Go.Time }.
End Time.
End metav1.

Module svcapitypes.

Module AnalyticsConfigurationType.
Record t : Type := mk {
  ApplicationARN : option string;
  ApplicationID : option string;
  ExternalID : option string;
  RoleARN : option string;
  UserDataShared : option bool
}.
End AnalyticsConfigurationType.

Module TokenValidityUnitsType.
Record t : Type := mk {
  AccessToken : option string;
  IDToken : option string;
  RefreshToken : option string
}.
End TokenValidityUnitsType.

(** The desired state, [Spec.ForProvider]. *)
Module UserPoolClientParameters.
Record t : Type := mk {
  AccessTokenValidity : option Z;
  AllowedOAuthFlows : StringSlice;
  AllowedOAuthFlowsUserPoolClient : option bool;
  AllowedOAuthScopes : StringSlice;
  AnalyticsConfiguration : option AnalyticsConfigurationType.t;
  CallbackURLs : StringSlice;
  ClientName : option string;
  DefaultRedirectURI : option string;
  EnableTokenRevocation : option bool;
  ExplicitAuthFlows : StringSlice;
  GenerateSecret : option bool;
  IDTokenValidity : option Z;
  LogoutURLs : StringSlice;
  PreventUserExistenceErrors : option string;
  ReadAttributes : StringSlice;
  RefreshTokenValidity : option Z;
  SupportedIdentityProviders : StringSlice;
  TokenValidityUnits : option TokenValidityUnitsType.t;
  WriteAttributes : StringSlice
}.
End UserPoolClientParameters.

(** The observed state, [Status.AtProvider]. *)
Module UserPoolClientObservation.
Record t : Type := mk {
  ClientID : option string;
  ClientSecret : option string;
  CreationDate : option metav1.Time.t;
  LastModifiedDate : option metav1.Time.t;
  UserPoolID : option string
}.
End UserPoolClientObservation.

Module UserPoolClientSpec.
Record t : Type := mk { ForProvider : UserPoolClientParameters.t }.
End UserPoolClientSpec.

Module UserPoolClientStatus.
Record t : Type := mk { AtProvider : UserPoolClientObservation.t }.
End UserPoolClientStatus.

Module UserPoolClient.
Record t : Type := mk {
  Spec : UserPoolClientSpec.t;
  Status : UserPoolClientStatus.t
}.
End UserPoolClient.

End svcapitypes.

Module svcsdk.

Module AnalyticsConfigurationType.
Record t : Type := mk {
  ApplicationArn : option string;
  ApplicationId : option string;
  ExternalId : option string;
  RoleArn : option string;
  UserDataShared : option bool
}.
End AnalyticsConfigurationType.

Module TokenValidityUnitsType.
Record t : Type := mk {
  AccessToken : option string;
  IdToken : option string;
  RefreshToken : option string
}.
End TokenValidityUnitsType.

(** The user pool client as the provider describes it. *)
Module UserPoolClientType.
Record t : Type := mk {
  AccessTokenValidity : option Z;
  AllowedOAuthFlows : StringSlice;
  AllowedOAuthFlowsUserPoolClient : option bool;
  AllowedOAuthScopes : StringSlice;
  AnalyticsConfiguration : option AnalyticsConfigurationType.t;
  CallbackURLs : StringSlice;
  ClientId : option string;
  ClientName : option string;
  ClientSecret : option string;
  CreationDate : option Go.Time;
  DefaultRedirectURI : option string;
  EnableTokenRevocation : option bool;
  ExplicitAuthFlows : StringSlice;
  IdTokenValidity : option Z;
  LastModifiedDate : option Go.Time;
  LogoutURLs : StringSlice;
  PreventUserExistenceErrors : option string;
  ReadAttributes : StringSlice;
  RefreshTokenValidity : option Z;
  SupportedIdentityProviders : StringSlice;
  TokenValidityUnits : option TokenValidityUnitsType.t;
  UserPoolId : option string;
  WriteAttributes : StringSlice
}.
End UserPoolClientType.

Module DescribeUserPoolClientInput.
Record t : Type := mk { ClientId : option string; UserPoolId : option string }.
End DescribeUserPoolClientInput.

Module DescribeUserPoolClientOutput.
Record t : Type := mk { UserPoolClient : option UserPoolClientType.t }.
End DescribeUserPoolClientOutput.

Module CreateUserPoolClientInput.
Record t : Type := mk {
  AccessTokenValidity : option Z;
  AllowedOAuthFlows : StringSlice;
  AllowedOAuthFlowsUserPoolClient : option bool;
  AllowedOAuthScopes : StringSlice;
  AnalyticsConfiguration : option AnalyticsConfigurationType.t;
  CallbackURLs : StringSlice;
  ClientName : option string;
  DefaultRedirectURI : option string;
  EnableTokenRevocation : option bool;
  ExplicitAuthFlows : StringSlice;
  GenerateSecret : option bool;
  IdTokenValidity : option Z;
  LogoutURLs : StringSlice;
  PreventUserExistenceErrors : option string;
  ReadAttributes : StringSlice;
  RefreshTokenValidity : option Z;
  SupportedIdentityProviders : StringSlice;
  TokenValidityUnits : option TokenValidityUnitsType.t;
  UserPoolId : option string;
  WriteAttributes : StringSlice
}.
End CreateUserPoolClientInput.

Module UpdateUserPoolClientInput.
Record t : Type := mk {
  AccessTokenValidity : option Z;
  AllowedOAuthFlows : StringSlice;
  AllowedOAuthFlowsUserPoolClient : option bool;
  AllowedOAuthScopes : StringSlice;
  AnalyticsConfiguration : option AnalyticsConfigurationType.t;
  CallbackURLs : StringSlice;
  ClientId : option string;
  ClientName : option string;
  DefaultRedirectURI : option string;
  EnableTokenRevocation : option bool;
  ExplicitAuthFlows : StringSlice;
  IdTokenValidity : option Z;
  LogoutURLs : StringSlice;
  PreventUserExistenceErrors : option string;
  ReadAttributes : StringSlice;
  RefreshTokenValidity : option Z;
  SupportedIdentityProviders : StringSlice;
  TokenValidityUnits : option TokenValidityUnitsType.t;
  UserPoolId : option string;
  WriteAttributes : StringSlice
}.
End UpdateUserPoolClientInput.

Module DeleteUserPoolClientInput.
Record t : Type := mk { ClientId : option string; UserPoolId : option string }.
End DeleteUserPoolClientInput.

End svcsdk.

(** ** [pkg/controller/cognitoidentityprovider/userpoolclient/zz_conversions.go] *)

Module UserPoolClient.

Module API := svcapitypes.
Module P := svcapitypes.UserPoolClientParameters.
Module O := svcapitypes.UserPoolClientObservation.
Module SDK := svcsdk.
Module U := svcsdk.UserPoolClientType.
Module CI := svcsdk.CreateUserPoolClientInput.
Module UI := svcsdk.UpdateUserPoolClientInput.

(** The statement pattern
    [if src != nil { dst = src } else { dst = nil }], and likewise
    [if src != nil { res.SetX( *src) }] on a fresh [res], whose setter
    stores a pointer to its argument. *)
Definition copyPtr {A : Type} (src : option A) : option A :=
  match src with
  | Some v => Some v
  | None => None
  end.

(** The loop
    [for _, iter := range xs { var elem string; elem = *iter; f = append(f, &elem) }]
    with [f] the slice built so far: a nil [iter] panics at [*iter]. *)
Fixpoint appendStrings (f xs : list (option string)) : option (list (option string)) :=
  match xs with
  | [] => Some f
  | iter :: xs' =>
      match iter with
      | None => None
      | Some elem => appendStrings (f ++ [Some elem]) xs'
      end
  end.

(** [if xs != nil { f := []*string{}; for ... ; dst = f } else { dst = nil }]
    (the else branch is implicit for a request, whose field starts nil). *)
Definition copySlice (xs : StringSlice) : option StringSlice :=
  match xs with
  | Some l => f ← appendStrings [] l; Some (Some f)
  | None => Some None
  end.

(** The nested struct conversions, response to resource. *)
Definition analyticsFromSDK (a : SDK.AnalyticsConfigurationType.t)
  : API.AnalyticsConfigurationType.t :=
  {| API.AnalyticsConfigurationType.ApplicationARN :=
       copyPtr (SDK.AnalyticsConfigurationType.ApplicationArn a);
     API.AnalyticsConfigurationType.ApplicationID :=
       copyPtr (SDK.AnalyticsConfigurationType.ApplicationId a);
     API.AnalyticsConfigurationType.ExternalID :=
       copyPtr (SDK.AnalyticsConfigurationType.ExternalId a);
     API.AnalyticsConfigurationType.RoleARN :=
       copyPtr (SDK.AnalyticsConfigurationType.RoleArn a);
     API.AnalyticsConfigurationType.UserDataShared :=
       copyPtr (SDK.AnalyticsConfigurationType.UserDataShared a) |}.

Definition tokenUnitsFromSDK (u : SDK.TokenValidityUnitsType.t)
  : API.TokenValidityUnitsType.t :=
  {| API.TokenValidityUnitsType.AccessToken :=
       copyPtr (SDK.TokenValidityUnitsType.AccessToken u);
     API.TokenValidityUnitsType.IDToken :=
       copyPtr (SDK.TokenValidityUnitsType.IdToken u);
     API.TokenValidityUnitsType.RefreshToken :=
       copyPtr (SDK.TokenValidityUnitsType.RefreshToken u) |}.

(** The nested struct conversions, resource to request. *)
Definition analyticsToSDK (a : API.AnalyticsConfigurationType.t)
  : SDK.AnalyticsConfigurationType.t :=
  {| SDK.AnalyticsConfigurationType.ApplicationArn :=
       copyPtr (API.AnalyticsConfigurationType.ApplicationARN a);
     SDK.AnalyticsConfigurationType.ApplicationId :=
       copyPtr (API.AnalyticsConfigurationType.ApplicationID a);
     SDK.AnalyticsConfigurationType.ExternalId :=
       copyPtr (API.AnalyticsConfigurationType.ExternalID a);
     SDK.AnalyticsConfigurationType.RoleArn :=
       copyPtr (API.AnalyticsConfigurationType.RoleARN a);
     SDK.AnalyticsConfigurationType.UserDataShared :=
       copyPtr (API.AnalyticsConfigurationType.UserDataShared a) |}.

Definition tokenUnitsToSDK (u : API.TokenValidityUnitsType.t)
  : SDK.TokenValidityUnitsType.t :=
  {| SDK.TokenValidityUnitsType.AccessToken :=
       copyPtr (API.TokenValidityUnitsType.AccessToken u);
     SDK.TokenValidityUnitsType.IdToken :=
       copyPtr (API.TokenValidityUnitsType.IDToken u);
     SDK.TokenValidityUnitsType.RefreshToken :=
       copyPtr (API.TokenValidityUnitsType.RefreshToken u) |}.

(** [if src != nil { f := &T{}; ...; dst = f } else { dst = nil }]. *)
Definition copyStruct {A B : Type} (conv : A -> B) (src : option A) : option B :=
  match src with
  | Some a => Some (conv a)
  | None => None
  end.

(** [if t != nil { dst = &metav1.Time{*t} } else { dst = nil }]. *)
Definition copyTime (t : option Go.Time) : option metav1.Time.t :=
  match t with
  | Some v => Some (metav1.Time.mk v)
  | None => None
  end.

(** [GenerateDescribeUserPoolClientInput]. *)
Definition GenerateDescribeUserPoolClientInput (cr : API.UserPoolClient.t)
  : SDK.DescribeUserPoolClientInput.t :=
  let at_ := API.UserPoolClientStatus.AtProvider (API.UserPoolClient.Status cr) in
  {| SDK.DescribeUserPoolClientInput.ClientId := copyPtr (O.ClientID at_);
     SDK.DescribeUserPoolClientInput.UserPoolId := copyPtr (O.UserPoolID at_) |}.

(** [GenerateUserPoolClient].  Every statement reads through
    [resp.UserPoolClient], so a nil member panics at the first one; the
    eight loops panic at a nil element.  A panic is the only effect, so
    the loops are run first here and the record is built from their
    results.  [GenerateSecret] is no field of the response and keeps the
    zero value of the fresh [cr]. *)
Definition GenerateUserPoolClient (resp : SDK.DescribeUserPoolClientOutput.t)
  : option API.UserPoolClient.t :=
  u ← SDK.DescribeUserPoolClientOutput.UserPoolClient resp;
  f1 ← copySlice (U.AllowedOAuthFlows u);
  f3 ← copySlice (U.AllowedOAuthScopes u);
  f5 ← copySlice (U.CallbackURLs u);
  f12 ← copySlice (U.ExplicitAuthFlows u);
  f15 ← copySlice (U.LogoutURLs u);
  f17 ← copySlice (U.ReadAttributes u);
  f19 ← copySlice (U.SupportedIdentityProviders u);
  f22 ← copySlice (U.WriteAttributes u);
  Some
    {| API.UserPoolClient.Spec :=
         {| API.UserPoolClientSpec.ForProvider :=
              {| P.AccessTokenValidity := copyPtr (U.AccessTokenValidity u);
                 P.AllowedOAuthFlows := f1;
                 P.AllowedOAuthFlowsUserPoolClient :=
                   copyPtr (U.AllowedOAuthFlowsUserPoolClient u);
                 P.AllowedOAuthScopes := f3;
                 P.AnalyticsConfiguration :=
                   copyStruct analyticsFromSDK (U.AnalyticsConfiguration u);
                 P.CallbackURLs := f5;
                 P.ClientName := copyPtr (U.ClientName u);
                 P.DefaultRedirectURI := copyPtr (U.DefaultRedirectURI u);
                 P.EnableTokenRevocation := copyPtr (U.EnableTokenRevocation u);
                 P.ExplicitAuthFlows := f12;
                 P.GenerateSecret := None;
                 P.IDTokenValidity := copyPtr (U.IdTokenValidity u);
                 P.LogoutURLs := f15;
                 P.PreventUserExistenceErrors :=
                   copyPtr (U.PreventUserExistenceErrors u);
                 P.ReadAttributes := f17;
                 P.RefreshTokenValidity := copyPtr (U.RefreshTokenValidity u);
                 P.SupportedIdentityProviders := f19;
                 P.TokenValidityUnits :=
                   copyStruct tokenUnitsFromSDK (U.TokenValidityUnits u);
                 P.WriteAttributes := f22 |} |};
       API.UserPoolClient.Status :=
         {| API.UserPoolClientStatus.AtProvider :=
              {| O.ClientID := copyPtr (U.ClientId u);
                 O.ClientSecret := copyPtr (U.ClientSecret u);
                 O.CreationDate := copyTime (U.CreationDate u);
                 O.LastModifiedDate := copyTime (U.LastModifiedDate u);
                 O.UserPoolID := copyPtr (U.UserPoolId u) |} |} |}.

(** [GenerateCreateUserPoolClientInput].  The request's [UserPoolId] is
    not set here and keeps the zero value of the fresh [res]. *)
Definition GenerateCreateUserPoolClientInput (cr : API.UserPoolClient.t)
  : option CI.t :=
  let p := API.UserPoolClientSpec.ForProvider (API.UserPoolClient.Spec cr) in
  f1 ← copySlice (P.AllowedOAuthFlows p);
  f3 ← copySlice (P.AllowedOAuthScopes p);
  f5 ← copySlice (P.CallbackURLs p);
  f9 ← copySlice (P.ExplicitAuthFlows p);
  f12 ← copySlice (P.LogoutURLs p);
  f14 ← copySlice (P.ReadAttributes p);
  f16 ← copySlice (P.SupportedIdentityProviders p);
  f18 ← copySlice (P.WriteAttributes p);
  Some
    {| CI.AccessTokenValidity := copyPtr (P.AccessTokenValidity p);
       CI.AllowedOAuthFlows := f1;
       CI.AllowedOAuthFlowsUserPoolClient :=
         copyPtr (P.AllowedOAuthFlowsUserPoolClient p);
       CI.AllowedOAuthScopes := f3;
       CI.AnalyticsConfiguration :=
         copyStruct analyticsToSDK (P.AnalyticsConfiguration p);
       CI.CallbackURLs := f5;
       CI.ClientName := copyPtr (P.ClientName p);
       CI.DefaultRedirectURI := copyPtr (P.DefaultRedirectURI p);
       CI.EnableTokenRevocation := copyPtr (P.EnableTokenRevocation p);
       CI.ExplicitAuthFlows := f9;
       CI.GenerateSecret := copyPtr (P.GenerateSecret p);
       CI.IdTokenValidity := copyPtr (P.IDTokenValidity p);
       CI.LogoutURLs := f12;
       CI.PreventUserExistenceErrors := copyPtr (P.PreventUserExistenceErrors p);
       CI.ReadAttributes := f14;
       CI.RefreshTokenValidity := copyPtr (P.RefreshTokenValidity p);
       CI.SupportedIdentityProviders := f16;
       CI.TokenValidityUnits :=
         copyStruct tokenUnitsToSDK (P.TokenValidityUnits p);
       CI.UserPoolId := None;
       CI.WriteAttributes := f18 |}.

(** [GenerateUpdateUserPoolClientInput].  [ClientId] and [UserPoolId] are
    read from [Status.AtProvider]; there is no [GenerateSecret]. *)
Definition GenerateUpdateUserPoolClientInput (cr : API.UserPoolClient.t)
  : option UI.t :=
  let p := API.UserPoolClientSpec.ForProvider (API.UserPoolClient.Spec cr) in
  let at_ := API.UserPoolClientStatus.AtProvider (API.UserPoolClient.Status cr) in
  f1 ← copySlice (P.AllowedOAuthFlows p);
  f3 ← copySlice (P.AllowedOAuthScopes p);
  f5 ← copySlice (P.CallbackURLs p);
  f10 ← copySlice (P.ExplicitAuthFlows p);
  f12 ← copySlice (P.LogoutURLs p);
  f14 ← copySlice (P.ReadAttributes p);
  f16 ← copySlice (P.SupportedIdentityProviders p);
  f19 ← copySlice (P.WriteAttributes p);
  Some
    {| UI.AccessTokenValidity := copyPtr (P.AccessTokenValidity p);
       UI.AllowedOAuthFlows := f1;
       UI.AllowedOAuthFlowsUserPoolClient :=
         copyPtr (P.AllowedOAuthFlowsUserPoolClient p);
       UI.AllowedOAuthScopes := f3;
       UI.AnalyticsConfiguration :=
         copyStruct analyticsToSDK (P.AnalyticsConfiguration p);
       UI.CallbackURLs := f5;
       UI.ClientId := copyPtr (O.ClientID at_);
       UI.ClientName := copyPtr (P.ClientName p);
       UI.DefaultRedirectURI := copyPtr (P.DefaultRedirectURI p);
       UI.EnableTokenRevocation := copyPtr (P.EnableTokenRevocation p);
       UI.ExplicitAuthFlows := f10;
       UI.IdTokenValidity := copyPtr (P.IDTokenValidity p);
       UI.LogoutURLs := f12;
       UI.PreventUserExistenceErrors := copyPtr (P.PreventUserExistenceErrors p);
       UI.ReadAttributes := f14;
       UI.RefreshTokenValidity := copyPtr (P.RefreshTokenValidity p);
       UI.SupportedIdentityProviders := f16;
       UI.TokenValidityUnits :=
         copyStruct tokenUnitsToSDK (P.TokenValidityUnits p);
       UI.UserPoolId := copyPtr (O.UserPoolID at_);
       UI.WriteAttributes := f19 |}.

(** [GenerateDeleteUserPoolClientInput]. *)
Definition GenerateDeleteUserPoolClientInput (cr : API.UserPoolClient.t)
  : SDK.DeleteUserPoolClientInput.t :=
  let at_ := API.UserPoolClientStatus.AtProvider (API.UserPoolClient.Status cr) in
  {| SDK.DeleteUserPoolClientInput.ClientId := copyPtr (O.ClientID at_);
     SDK.DeleteUserPoolClientInput.UserPoolId := copyPtr (O.UserPoolID at_) |}.

(** [IsNotFound]: the type assertion [err.(awserr.Error)] succeeds on a
    value of the SDK's error interface only (not on nil, and not on an
    error that wraps one). *)
Definition IsNotFound (err : option error) : bool :=
  match err with
  | Some (AwsErr code _) => String.eqb code "ResourceNotFoundException"
  | _ => false
  end.

(** *** Specification vocabulary *)

(** A pointer that is not nil. *)
Definition nonNil {A : Type} (p : option A) : bool :=
  match p with
  | Some _ => true
  | None => false
  end.

(** A slice none of whose element pointers is nil (the nil slice has no
    element). *)
Definition elementsNonNil (xs : StringSlice) : bool :=
  match xs with
  | Some l => forallb nonNil l
  | None => true
  end.

(** The eight string-slice fields of a response, and of a desired state. *)
Definition responseSlices (u : U.t) : list StringSlice :=
  [U.AllowedOAuthFlows u; U.AllowedOAuthScopes u; U.CallbackURLs u;
   U.ExplicitAuthFlows u; U.LogoutURLs u; U.ReadAttributes u;
   U.SupportedIdentityProviders u; U.WriteAttributes u].

Definition parameterSlices (p : P.t) : list StringSlice :=
  [P.AllowedOAuthFlows p; P.AllowedOAuthScopes p; P.CallbackURLs p;
   P.ExplicitAuthFlows p; P.LogoutURLs p; P.ReadAttributes p;
   P.SupportedIdentityProviders p; P.WriteAttributes p].

(** The precondition of [GenerateUserPoolClient]: the response's
    [UserPoolClient] member is not nil and no element pointer of its
    string slices is nil. *)
Definition inDomain (resp : SDK.DescribeUserPoolClientOutput.t) : bool :=
  match SDK.DescribeUserPoolClientOutput.UserPoolClient resp with
  | Some u => forallb elementsNonNil (responseSlices u)
  | None => false
  end.

(** The same for a desired state: no nil element pointer in its slices. *)
Definition parametersWellFormed (cr : API.UserPoolClient.t) : bool :=
  forallb elementsNonNil
    (parameterSlices (API.UserPoolClientSpec.ForProvider (API.UserPoolClient.Spec cr))).

(** The nested structs of the resource and of the SDK hold the same
    optional values. *)
Definition sameAnalytics (a : API.AnalyticsConfigurationType.t)
    (b : SDK.AnalyticsConfigurationType.t) : Prop :=
  API.AnalyticsConfigurationType.ApplicationARN a =
    SDK.AnalyticsConfigurationType.ApplicationArn b /\
  API.AnalyticsConfigurationType.ApplicationID a =
    SDK.AnalyticsConfigurationType.ApplicationId b /\
  API.AnalyticsConfigurationType.ExternalID a =
    SDK.AnalyticsConfigurationType.ExternalId b /\
  API.AnalyticsConfigurationType.RoleARN a =
    SDK.AnalyticsConfigurationType.RoleArn b /\
  API.AnalyticsConfigurationType.UserDataShared a =
    SDK.AnalyticsConfigurationType.UserDataShared b.

Definition sameTokenUnits (a : API.TokenValidityUnitsType.t)
    (b : SDK.TokenValidityUnitsType.t) : Prop :=
  API.TokenValidityUnitsType.AccessToken a =
    SDK.TokenValidityUnitsType.AccessToken b /\
  API.TokenValidityUnitsType.IDToken a =
    SDK.TokenValidityUnitsType.IdToken b /\
  API.TokenValidityUnitsType.RefreshToken a =
    SDK.TokenValidityUnitsType.RefreshToken b.

(** C3 as the specification states it: the conversion yields a resource
    whose desired state holds each user-settable field of the response and
    whose observed state holds each server-assigned field, an absent field
    being absent ([option] equality says both). *)
Definition SplitsResponse (resp : SDK.DescribeUserPoolClientOutput.t) : Prop :=
  exists u cr,
    SDK.DescribeUserPoolClientOutput.UserPoolClient resp = Some u /\
    GenerateUserPoolClient resp = Some cr /\
    let p := API.UserPoolClientSpec.ForProvider (API.UserPoolClient.Spec cr) in
    let o := API.UserPoolClientStatus.AtProvider (API.UserPoolClient.Status cr) in
    P.AccessTokenValidity p = U.AccessTokenValidity u /\
    P.AllowedOAuthFlows p = U.AllowedOAuthFlows u /\
    P.AllowedOAuthFlowsUserPoolClient p = U.AllowedOAuthFlowsUserPoolClient u /\
    P.AllowedOAuthScopes p = U.AllowedOAuthScopes u /\
    P.CallbackURLs p = U.CallbackURLs u /\
    P.ClientName p = U.ClientName u /\
    P.DefaultRedirectURI p = U.DefaultRedirectURI u /\
    P.EnableTokenRevocation p = U.EnableTokenRevocation u /\
    P.ExplicitAuthFlows p = U.ExplicitAuthFlows u /\
    P.IDTokenValidity p = U.IdTokenValidity u /\
    P.LogoutURLs p = U.LogoutURLs u /\
    P.PreventUserExistenceErrors p = U.PreventUserExistenceErrors u /\
    P.ReadAttributes p = U.ReadAttributes u /\
    P.RefreshTokenValidity p = U.RefreshTokenValidity u /\
    P.SupportedIdentityProviders p = U.SupportedIdentityProviders u /\
    P.WriteAttributes p = U.WriteAttributes u /\
    option_Forall2 sameAnalytics (P.AnalyticsConfiguration p) (U.AnalyticsConfiguration u) /\
    option_Forall2 sameTokenUnits (P.TokenValidityUnits p) (U.TokenValidityUnits u) /\
    O.ClientID o = U.ClientId u /\
    O.ClientSecret o = U.ClientSecret u /\
    O.CreationDate o = metav1.Time.mk <$> U.CreationDate u /\
    O.LastModifiedDate o = metav1.Time.mk <$> U.LastModifiedDate u /\
    O.UserPoolID o = U.UserPoolId u.

(** The fields of the desired state a request has a field for, each set
    in the request exactly when the desired state has it, and then to the
    same value: all nineteen for the create request, and the eighteen
    other than [GenerateSecret] for the update request, whose type has no
    such field. *)
Definition CreateCarries (p : P.t) (r : CI.t) : Prop :=
  CI.AccessTokenValidity r = P.AccessTokenValidity p /\
  CI.AllowedOAuthFlows r = P.AllowedOAuthFlows p /\
  CI.AllowedOAuthFlowsUserPoolClient r = P.AllowedOAuthFlowsUserPoolClient p /\
  CI.AllowedOAuthScopes r = P.AllowedOAuthScopes p /\
  CI.CallbackURLs r = P.CallbackURLs p /\
  CI.ClientName r = P.ClientName p /\
  CI.DefaultRedirectURI r = P.DefaultRedirectURI p /\
  CI.EnableTokenRevocation r = P.EnableTokenRevocation p /\
  CI.ExplicitAuthFlows r = P.ExplicitAuthFlows p /\
  CI.GenerateSecret r = P.GenerateSecret p /\
  CI.IdTokenValidity r = P.IDTokenValidity p /\
  CI.LogoutURLs r = P.LogoutURLs p /\
  CI.PreventUserExistenceErrors r = P.PreventUserExistenceErrors p /\
  CI.ReadAttributes r = P.ReadAttributes p /\
  CI.RefreshTokenValidity r = P.RefreshTokenValidity p /\
  CI.SupportedIdentityProviders r = P.SupportedIdentityProviders p /\
  CI.WriteAttributes r = P.WriteAttributes p /\
  option_Forall2 sameAnalytics (P.AnalyticsConfiguration p) (CI.AnalyticsConfiguration r) /\
  option_Forall2 sameTokenUnits (P.TokenValidityUnits p) (CI.TokenValidityUnits r).

Definition UpdateCarries (p : P.t) (r : UI.t) : Prop :=
  UI.AccessTokenValidity r = P.AccessTokenValidity p /\
  UI.AllowedOAuthFlows r = P.AllowedOAuthFlows p /\
  UI.AllowedOAuthFlowsUserPoolClient r = P.AllowedOAuthFlowsUserPoolClient p /\
  UI.AllowedOAuthScopes r = P.AllowedOAuthScopes p /\
  UI.CallbackURLs r = P.CallbackURLs p /\
  UI.ClientName r = P.ClientName p /\
  UI.DefaultRedirectURI r = P.DefaultRedirectURI p /\
  UI.EnableTokenRevocation r = P.EnableTokenRevocation p /\
  UI.ExplicitAuthFlows r = P.ExplicitAuthFlows p /\
  UI.IdTokenValidity r = P.IDTokenValidity p /\
  UI.LogoutURLs r = P.LogoutURLs p /\
  UI.PreventUserExistenceErrors r = P.PreventUserExistenceErrors p /\
  UI.ReadAttributes r = P.ReadAttributes p /\
  UI.RefreshTokenValidity r = P.RefreshTokenValidity p /\
  UI.SupportedIdentityProviders r = P.SupportedIdentityProviders p /\
  UI.WriteAttributes r = P.WriteAttributes p /\
  option_Forall2 sameAnalytics (P.AnalyticsConfiguration p) (UI.AnalyticsConfiguration r) /\
  option_Forall2 sameTokenUnits (P.TokenValidityUnits p) (UI.TokenValidityUnits r).

(** C4 as the specification states it.  Both requests are built; every
    present field of the desired state is copied into each, so the update
    request, which has no field for it, can only serve a desired state
    without [GenerateSecret]; and a field of a request is set only when
    the desired state has the corresponding field, so the fields that
    have none there (the user pool of the create request, the client and
    user pool of the update request) are not set. *)
Definition RequestsCarrySpec (cr : API.UserPoolClient.t) : Prop :=
  let p := API.UserPoolClientSpec.ForProvider (API.UserPoolClient.Spec cr) in
  (exists r,
     GenerateCreateUserPoolClientInput cr = Some r /\
     CreateCarries p r /\
     CI.UserPoolId r = None) /\
  (exists r,
     GenerateUpdateUserPoolClientInput cr = Some r /\
     UpdateCarries p r /\
     P.GenerateSecret p = None /\
     UI.ClientId r = None /\
     UI.UserPoolId r = None).

(** The fields a provider assigns on creation. *)
Record ServerAssigned : Type := {
  sa_ClientId : option string;
  sa_ClientSecret : option string;
  sa_CreationDate : option Go.Time;
  sa_LastModifiedDate : option Go.Time
}.

(** The describe response equivalent to a create request (specification,
    round-trip property): the user pool client that has every field of
    the request under the same name, next to what the provider assigned.
    The response has no [GenerateSecret]. *)
Definition describeResponseOf (req : CI.t) (srv : ServerAssigned)
  : SDK.DescribeUserPoolClientOutput.t :=
  {| SDK.DescribeUserPoolClientOutput.UserPoolClient :=
       Some
         {| U.AccessTokenValidity := CI.AccessTokenValidity req;
            U.AllowedOAuthFlows := CI.AllowedOAuthFlows req;
            U.AllowedOAuthFlowsUserPoolClient := CI.AllowedOAuthFlowsUserPoolClient req;
            U.AllowedOAuthScopes := CI.AllowedOAuthScopes req;
            U.AnalyticsConfiguration := CI.AnalyticsConfiguration req;
            U.CallbackURLs := CI.CallbackURLs req;
            U.ClientId := sa_ClientId srv;
            U.ClientName := CI.ClientName req;
            U.ClientSecret := sa_ClientSecret srv;
            U.CreationDate := sa_CreationDate srv;
            U.DefaultRedirectURI := CI.DefaultRedirectURI req;
            U.EnableTokenRevocation := CI.EnableTokenRevocation req;
            U.ExplicitAuthFlows := CI.ExplicitAuthFlows req;
            U.IdTokenValidity := CI.IdTokenValidity req;
            U.LastModifiedDate := sa_LastModifiedDate srv;
            U.LogoutURLs := CI.LogoutURLs req;
            U.PreventUserExistenceErrors := CI.PreventUserExistenceErrors req;
            U.ReadAttributes := CI.ReadAttributes req;
            U.RefreshTokenValidity := CI.RefreshTokenValidity req;
            U.SupportedIdentityProviders := CI.SupportedIdentityProviders req;
            U.TokenValidityUnits := CI.TokenValidityUnits req;
            U.UserPoolId := CI.UserPoolId req;
            U.WriteAttributes := CI.WriteAttributes req |} |}.

(** C2 as the specification states it: the round trip gives back the
    desired state, field for field. *)
Definition RoundTrips (cr : API.UserPoolClient.t) : Prop :=
  forall srv,
    exists req cr',
      GenerateCreateUserPoolClientInput cr = Some req /\
      GenerateUserPoolClient (describeResponseOf req srv) = Some cr' /\
      API.UserPoolClientSpec.ForProvider (API.UserPoolClient.Spec cr') =
      API.UserPoolClientSpec.ForProvider (API.UserPoolClient.Spec cr).

(** The desired state without its [GenerateSecret]. *)
Definition withoutGenerateSecret (p : P.t) : P.t :=
  {| P.AccessTokenValidity := P.AccessTokenValidity p;
     P.AllowedOAuthFlows := P.AllowedOAuthFlows p;
     P.AllowedOAuthFlowsUserPoolClient := P.AllowedOAuthFlowsUserPoolClient p;
     P.AllowedOAuthScopes := P.AllowedOAuthScopes p;
     P.AnalyticsConfiguration := P.AnalyticsConfiguration p;
     P.CallbackURLs := P.CallbackURLs p;
     P.ClientName := P.ClientName p;
     P.DefaultRedirectURI := P.DefaultRedirectURI p;
     P.EnableTokenRevocation := P.EnableTokenRevocation p;
     P.ExplicitAuthFlows := P.ExplicitAuthFlows p;
     P.GenerateSecret := None;
     P.IDTokenValidity := P.IDTokenValidity p;
     P.LogoutURLs := P.LogoutURLs p;
     P.PreventUserExistenceErrors := P.PreventUserExistenceErrors p;
     P.ReadAttributes := P.ReadAttributes p;
     P.RefreshTokenValidity := P.RefreshTokenValidity p;
     P.SupportedIdentityProviders := P.SupportedIdentityProviders p;
     P.TokenValidityUnits := P.TokenValidityUnits p;
     P.WriteAttributes := P.WriteAttributes p |}.

(** The resource with [GenerateSecret] removed from its desired state. *)
Definition clearGenerateSecret (cr : API.UserPoolClient.t) : API.UserPoolClient.t :=
  {| API.UserPoolClient.Spec :=
       {| API.UserPoolClientSpec.ForProvider :=
            withoutGenerateSecret
              (API.UserPoolClientSpec.ForProvider (API.UserPoolClient.Spec cr)) |};
     API.UserPoolClient.Status := API.UserPoolClient.Status cr |}.

(** A create request and an update request carry the same desired state:
    the eighteen fields the two requests share by name hold the same
    values. *)
Definition SameDesiredState (c : CI.t) (u : UI.t) : Prop :=
  CI.AccessTokenValidity c = UI.AccessTokenValidity u /\
  CI.AllowedOAuthFlows c = UI.AllowedOAuthFlows u /\
  CI.AllowedOAuthFlowsUserPoolClient c = UI.AllowedOAuthFlowsUserPoolClient u /\
  CI.AllowedOAuthScopes c = UI.AllowedOAuthScopes u /\
  CI.AnalyticsConfiguration c = UI.AnalyticsConfiguration u /\
  CI.CallbackURLs c = UI.CallbackURLs u /\
  CI.ClientName c = UI.ClientName u /\
  CI.DefaultRedirectURI c = UI.DefaultRedirectURI u /\
  CI.EnableTokenRevocation c = UI.EnableTokenRevocation u /\
  CI.ExplicitAuthFlows c = UI.ExplicitAuthFlows u /\
  CI.IdTokenValidity c = UI.IdTokenValidity u /\
  CI.LogoutURLs c = UI.LogoutURLs u /\
  CI.PreventUserExistenceErrors c = UI.PreventUserExistenceErrors u /\
  CI.ReadAttributes c = UI.ReadAttributes u /\
  CI.RefreshTokenValidity c = UI.RefreshTokenValidity u /\
  CI.SupportedIdentityProviders c = UI.SupportedIdentityProviders u /\
  CI.TokenValidityUnits c = UI.TokenValidityUnits u /\
  CI.WriteAttributes c = UI.WriteAttributes u.

(** An update request repeats a described user pool client: each of its
    twenty fields holds what the description holds under that name. *)
Definition UpdateRepeats (r : UI.t) (u : U.t) : Prop :=
  UI.AccessTokenValidity r = U.AccessTokenValidity u /\
  UI.AllowedOAuthFlows r = U.AllowedOAuthFlows u /\
  UI.AllowedOAuthFlowsUserPoolClient r = U.AllowedOAuthFlowsUserPoolClient u /\
  UI.AllowedOAuthScopes r = U.AllowedOAuthScopes u /\
  UI.AnalyticsConfiguration r = U.AnalyticsConfiguration u /\
  UI.CallbackURLs r = U.CallbackURLs u /\
  UI.ClientName r = U.ClientName u /\
  UI.DefaultRedirectURI r = U.DefaultRedirectURI u /\
  UI.EnableTokenRevocation r = U.EnableTokenRevocation u /\
  UI.ExplicitAuthFlows r = U.ExplicitAuthFlows u /\
  UI.IdTokenValidity r = U.IdTokenValidity u /\
  UI.LogoutURLs r = U.LogoutURLs u /\
  UI.PreventUserExistenceErrors r = U.PreventUserExistenceErrors u /\
  UI.ReadAttributes r = U.ReadAttributes u /\
  UI.RefreshTokenValidity r = U.RefreshTokenValidity u /\
  UI.SupportedIdentityProviders r = U.SupportedIdentityProviders u /\
  UI.TokenValidityUnits r = U.TokenValidityUnits u /\
  UI.WriteAttributes r = U.WriteAttributes u /\
  UI.ClientId r = U.ClientId u /\
  UI.UserPoolId r = U.UserPoolId u.

(** *** Example objects *)

(** A web client's desired state, with the given OAuth flows and
    generate-secret choice, and an observed state. *)
Definition exampleParameters (flows : StringSlice) (secret : option bool) : P.t :=
  {| P.AccessTokenValidity := Some 60%Z;
     P.AllowedOAuthFlows := flows;
     P.AllowedOAuthFlowsUserPoolClient := Some true;
     P.AllowedOAuthScopes := Some [Some "openid"; Some "email"];
     P.AnalyticsConfiguration :=
       Some {| API.AnalyticsConfigurationType.ApplicationARN := None;
               API.AnalyticsConfigurationType.ApplicationID := Some "app-1";
               API.AnalyticsConfigurationType.ExternalID := None;
               API.AnalyticsConfigurationType.RoleARN := Some "arn:aws:iam::1:role/r";
               API.AnalyticsConfigurationType.UserDataShared := Some false |};
     P.CallbackURLs := Some [];
     P.ClientName := Some "web";
     P.DefaultRedirectURI := None;
     P.EnableTokenRevocation := None;
     P.ExplicitAuthFlows := None;
     P.GenerateSecret := secret;
     P.IDTokenValidity := Some 0%Z;
     P.LogoutURLs := None;
     P.PreventUserExistenceErrors := Some "";
     P.ReadAttributes := None;
     P.RefreshTokenValidity := None;
     P.SupportedIdentityProviders := Some [Some "COGNITO"];
     P.TokenValidityUnits :=
       Some {| API.TokenValidityUnitsType.AccessToken := Some "minutes";
               API.TokenValidityUnitsType.IDToken := None;
               API.TokenValidityUnitsType.RefreshToken := None |};
     P.WriteAttributes := None |}.

Definition exampleObservation (clientID : option string) : O.t :=
  {| O.ClientID := clientID;
     O.ClientSecret := None;
     O.CreationDate := None;
     O.LastModifiedDate := None;
     O.UserPoolID := Some "eu-west-1_AbCdEf" |}.

Definition exampleResource (flows : StringSlice) (secret : option bool)
    (clientID : option string) : API.UserPoolClient.t :=
  {| API.UserPoolClient.Spec :=
       {| API.UserPoolClientSpec.ForProvider := exampleParameters flows secret |};
     API.UserPoolClient.Status :=
       {| API.UserPoolClientStatus.AtProvider := exampleObservation clientID |} |}.

(** The same desired state on a resource of which nothing was observed
    yet. *)
Definition exampleFreshResource (flows : StringSlice) (secret : option bool)
  : API.UserPoolClient.t :=
  {| API.UserPoolClient.Spec :=
       {| API.UserPoolClientSpec.ForProvider := exampleParameters flows secret |};
     API.UserPoolClient.Status :=
       {| API.UserPoolClientStatus.AtProvider :=
            {| O.ClientID := None;
               O.ClientSecret := None;
               O.CreationDate := None;
               O.LastModifiedDate := None;
               O.UserPoolID := None |} |} |}.

Definition exampleServerAssigned : ServerAssigned :=
  {| sa_ClientId := Some "4h57kf1";
     sa_ClientSecret := None;
     sa_CreationDate := Some (Instant 1620000000000000000);
     sa_LastModifiedDate := None |}.

(** A describe response with the given OAuth flows. *)
Definition exampleResponse (flows : StringSlice) : SDK.DescribeUserPoolClientOutput.t :=
  {| SDK.DescribeUserPoolClientOutput.UserPoolClient :=
       Some
         {| U.AccessTokenValidity := Some 60%Z;
            U.AllowedOAuthFlows := flows;
            U.AllowedOAuthFlowsUserPoolClient := None;
            U.AllowedOAuthScopes := Some [];
            U.AnalyticsConfiguration := None;
            U.CallbackURLs := None;
            U.ClientId := Some "4h57kf1";
            U.ClientName := Some "web";
            U.ClientSecret := None;
            U.CreationDate := Some (Instant 1620000000000000000);
            U.DefaultRedirectURI := Some "";
            U.EnableTokenRevocation := Some false;
            U.ExplicitAuthFlows := None;
            U.IdTokenValidity := None;
            U.LastModifiedDate := None;
            U.LogoutURLs := None;
            U.PreventUserExistenceErrors := None;
            U.ReadAttributes := None;
            U.RefreshTokenValidity := None;
            U.SupportedIdentityProviders := None;
            U.TokenValidityUnits :=
              Some {| SDK.TokenValidityUnitsType.AccessToken := None;
                      SDK.TokenValidityUnitsType.IdToken := None;
                      SDK.TokenValidityUnitsType.RefreshToken := Some "days" |};
            U.UserPoolId := Some "eu-west-1_AbCdEf";
            U.WriteAttributes := None |} |}.

End UserPoolClient.

(** ** Interface values of crossplane-runtime's [resource] package

    A value of [resource.Claim], [resource.Class] or [resource.Managed] is
    an object of the kind the configurator expects, or an object of
    another kind, of which only the metadata is read.  The binding
    reconciler calls its configurators with allocated objects: a nil
    interface value, or a nil pointer inside one, is not a value here. *)

Module resource.
Import cachev1alpha1 v1beta1.

Inductive Claim : Type :=
| Claim_RedisCluster (rc : RedisCluster.t)
| Claim_other (name uid : string).

Inductive Class (Rest : Type) : Type :=
| Class_ReplicationGroupClass (rgc : ReplicationGroupClass.t Rest)
| Class_other (name : string).
Arguments Class_ReplicationGroupClass {Rest}.
Arguments Class_other {Rest}.

Inductive Managed (Rest Obs : Type) : Type :=
| Managed_ReplicationGroup (rg : ReplicationGroup.t Rest Obs)
| Managed_other (name : string).
Arguments Managed_ReplicationGroup {Rest Obs}.
Arguments Managed_other {Rest Obs}.

(** The methods [GetName] and [GetUID]. *)
Definition Claim_GetName (cm : Claim) : string :=
  match cm with
  | Claim_RedisCluster rc => RedisCluster.Name rc
  | Claim_other name _ => name
  end.

Definition Claim_GetUID (cm : Claim) : string :=
  match cm with
  | Claim_RedisCluster rc => RedisCluster.UID rc
  | Claim_other _ uid => uid
  end.

Definition Class_GetName {Rest} (cs : Class Rest) : string :=
  match cs with
  | Class_ReplicationGroupClass rgc => ReplicationGroupClass.Name rgc
  | Class_other name => name
  end.

Definition Managed_GetName {Rest Obs} (mg : Managed Rest Obs) : string :=
  match mg with
  | Managed_ReplicationGroup rg => ReplicationGroup.Name rg
  | Managed_other name => name
  end.

(** The type assertions [cm.( *RedisCluster)], [cs.( *ReplicationGroupClass)]
    and [mg.( *ReplicationGroup)] succeed on these. *)
Definition isRedisCluster (cm : Claim) : bool :=
  match cm with Claim_RedisCluster _ => true | Claim_other _ _ => false end.

Definition isReplicationGroupClass {Rest} (cs : Class Rest) : bool :=
  match cs with Class_ReplicationGroupClass _ => true | Class_other _ => false end.

Definition isReplicationGroup {Rest Obs} (mg : Managed Rest Obs) : bool :=
  match mg with Managed_ReplicationGroup _ => true | Managed_other _ => false end.

End resource.

(** ** [pkg/controller/cache/claim.go] *)

Module Cache.
Import runtimev1alpha1 cachev1alpha1 v1beta1 resource.

(** *** Example objects

    A supported-version table with the sentinel [""], the three kinds as
    printed, and a claim, two classes and a managed resource.  The other
    provider parameters are a node type here, the observed status is
    empty. *)
Definition exampleTable : gmap string string :=
  <["6.2" := "6.2.6"]> (<["5.0" := "5.0.6"]> ∅).

Definition exampleUnsupported : string := "".

(** A table whose entry for 6.2 is not a patch of 6.2. *)
Definition exampleSkewedTable : gmap string string :=
  <["6.2" := "7.0.1"]> ∅.

Definition exampleClaimKind : string :=
  "cache.crossplane.io/v1alpha1, Kind=RedisCluster".
Definition exampleClassKind : string :=
  "cache.aws.crossplane.io/v1beta1, Kind=ReplicationGroupClass".
Definition exampleManagedKind : string :=
  "cache.aws.crossplane.io/v1beta1, Kind=ReplicationGroup".

Definition exampleClaim (version : string) : Claim :=
  Claim_RedisCluster
    (RedisCluster.mk "my-redis" "3f1c9a52" (RedisClusterSpec.mk version)).

Definition exampleClass (policy : ReclaimPolicy) (version : option string)
  : Class string :=
  Class_ReplicationGroupClass
    (ReplicationGroupClass.mk "redis-standard"
       (ReplicationGroupClassSpecTemplate.mk
          (ClassSpecTemplate.mk "crossplane-system" policy)
          (ReplicationGroupParameters.mk version "cache.t3.medium"))).

Definition exampleManaged : Managed string unit :=
  Managed_ReplicationGroup
    (ReplicationGroup.mk "my-redis-x7k2p"
       (ReplicationGroupSpec.mk
          (ResourceSpec.mk None "")
          (ReplicationGroupParameters.mk None ""))
       tt).

Section Configurator.

(** Constants of package v1beta1 the file refers to: the supported-version
    table (a Go map from minor version to patch version), its
    "unsupported" sentinel, and the three group-version-kinds as [%s]
    prints them. *)
Variable LatestSupportedPatchVersion : gmap string string.
Variable UnsupportedVersion : string.
Variable RedisClusterGroupVersionKind : string.
Variable ReplicationGroupClassGroupVersionKind : string.
Variable ReplicationGroupGroupVersionKind : string.

(** The provider parameters other than the engine version, and the
    managed resource's observed status. *)
Variable Rest : Type.
Variable Obs : Type.

(** [latestSupportedPatchVersion].  Indexing a Go map at a missing key
    gives the zero value, the empty string. *)
Definition latestSupportedPatchVersion (minorVersion : string)
  : option string * option error :=
  let p := default "" (LatestSupportedPatchVersion !! minorVersion) in
  if String.eqb p UnsupportedVersion
  then (None, Some (Errorf ("minor version " +:+ minorVersion +:+
                            " is not currently supported")))
  else (Some p, None).

(** [resolveAWSClassInstanceValues].  The Go function updates [spec] in
    place and returns the error; here the updated [spec] is returned with
    it.  The switch takes the first case whose condition holds. *)
Definition resolveAWSClassInstanceValues
    (spec : ReplicationGroupParameters.t Rest) (rc : RedisCluster.t)
  : ReplicationGroupParameters.t Rest * option error :=
  let classVersion := StringValue (ReplicationGroupParameters.EngineVersion spec) in
  let claimVersion := RedisClusterSpec.EngineVersion (RedisCluster.Spec rc) in
  let '(spec, err) :=
    if String.eqb classVersion "" && String.eqb claimVersion "" then
      (spec, None)
    else if String.eqb classVersion "" && negb (String.eqb claimVersion "") then
      let '(v, err) := latestSupportedPatchVersion claimVersion in
      (ReplicationGroupParameters.set_EngineVersion v spec, err)
    else if negb (String.eqb classVersion "") && String.eqb claimVersion "" then
      (spec, None)
    else if negb (HasPrefix classVersion (claimVersion +:+ ".")) then
      (spec, Some (Errorf ("class version " +:+ classVersion +:+
                           " is not a patch of claim version " +:+ claimVersion)))
    else
      (spec, None)
  in
  (spec, errors_Wrap err "cannot resolve class claim values").

(** [ConfigureReplicationGroup].  The managed resource is passed by
    pointer and assigned at the end; the function here returns the
    managed resource as the call leaves it, with the error.  [spec] is a
    local value until [rg.Spec = *spec]. *)
Definition ConfigureReplicationGroup
    (cm : Claim) (cs : Class Rest) (mg : Managed Rest Obs)
  : Managed Rest Obs * option error :=
  match cm with
  | Claim_other _ _ =>
      (mg, Some (Errorf ("expected resource claim " +:+ Claim_GetName cm +:+
                         " to be " +:+ RedisClusterGroupVersionKind)))
  | Claim_RedisCluster rc =>
  match cs with
  | Class_other _ =>
      (mg, Some (Errorf ("expected resource class " +:+ Class_GetName cs +:+
                         " to be " +:+ ReplicationGroupClassGroupVersionKind)))
  | Class_ReplicationGroupClass rgc =>
  match mg with
  | Managed_other _ =>
      (mg, Some (Errorf ("expected managed resource " +:+ Managed_GetName mg +:+
                         " to be " +:+ ReplicationGroupGroupVersionKind)))
  | Managed_ReplicationGroup rg =>
      let template := ReplicationGroupClass.SpecTemplate rgc in
      let class := ReplicationGroupClassSpecTemplate.ClassSpecTemplate template in
      let spec :=
        ReplicationGroupSpec.mk
          (ResourceSpec.mk None ReclaimRetain)
          (ReplicationGroupClassSpecTemplate.ForProvider template) in
      let '(forProvider, err) :=
        resolveAWSClassInstanceValues (ReplicationGroupSpec.ForProvider spec) rc in
      let spec := ReplicationGroupSpec.mk (ReplicationGroupSpec.ResourceSpec spec) forProvider in
      match err with
      | Some e => (mg, Some (Wrap e "cannot resolve AWS class instance values"))
      | None =>
          let ref := SecretReference.mk
                       (Claim_GetUID cm)
                       (ClassSpecTemplate.WriteConnectionSecretsToNamespace class) in
          let spec :=
            ReplicationGroupSpec.mk
              (ResourceSpec.mk (Some ref)
                 (ResourceSpec.ReclaimPolicy (ReplicationGroupSpec.ResourceSpec spec)))
              (ReplicationGroupSpec.ForProvider spec) in
          let spec :=
            ReplicationGroupSpec.mk
              (ResourceSpec.mk
                 (ResourceSpec.WriteConnectionSecretToReference
                    (ReplicationGroupSpec.ResourceSpec spec))
                 (ClassSpecTemplate.ReclaimPolicy class))
              (ReplicationGroupSpec.ForProvider spec) in
          (Managed_ReplicationGroup (ReplicationGroup.set_Spec spec rg), None)
      end
  end
  end
  end.

(** *** Specification vocabulary *)

(** The two errors of the version resolver, as its caller receives them:
    [UnsupportedVersion{minor}] and [VersionConflict{class, claim}]. *)
Definition ErrUnsupportedVersion (minor : string) : error :=
  Wrap (Errorf ("minor version " +:+ minor +:+ " is not currently supported"))
       "cannot resolve class claim values".

Definition ErrVersionConflict (class claim : string) : error :=
  Wrap (Errorf ("class version " +:+ class +:+
                " is not a patch of claim version " +:+ claim))
       "cannot resolve class claim values".

(** The table's answer for a minor version. *)
Definition tableLookup (minor : string) : string :=
  default "" (LatestSupportedPatchVersion !! minor).

(** The [WrongKind] errors: one message per argument, naming the object
    and the kind that was expected. *)
Definition ErrWrongClaimKind (name : string) : error :=
  Errorf ("expected resource claim " +:+ name +:+ " to be " +:+
          RedisClusterGroupVersionKind).

Definition ErrWrongClassKind (name : string) : error :=
  Errorf ("expected resource class " +:+ name +:+ " to be " +:+
          ReplicationGroupClassGroupVersionKind).

Definition ErrWrongManagedKind (name : string) : error :=
  Errorf ("expected managed resource " +:+ name +:+ " to be " +:+
          ReplicationGroupGroupVersionKind).

Inductive WrongKind : error -> Prop :=
| WrongKind_claim name : WrongKind (ErrWrongClaimKind name)
| WrongKind_class name : WrongKind (ErrWrongClassKind name)
| WrongKind_managed name : WrongKind (ErrWrongManagedKind name).

(** A version-resolution failure as [ConfigureReplicationGroup] returns
    it: the resolver's error under the configurator's context. *)
Definition ErrResolve (e : error) : error :=
  Wrap e "cannot resolve AWS class instance values".

(** The state of the managed resource the specification describes after a
    successful resource-configurator step: the class template's provider
    parameters, and the interim reclaim policy. *)
Definition ConfiguredWithInterimRetain
    (cm : Claim) (cs : Class Rest) (mg : Managed Rest Obs) : Prop :=
  forall rgc mg',
    cs = Class_ReplicationGroupClass rgc ->
    ConfigureReplicationGroup cm cs mg = (mg', None) ->
    exists rg',
      mg' = Managed_ReplicationGroup rg' /\
      ReplicationGroupSpec.ForProvider (ReplicationGroup.Spec rg') =
        ReplicationGroupClassSpecTemplate.ForProvider
          (ReplicationGroupClass.SpecTemplate rgc) /\
      ResourceSpec.ReclaimPolicy
        (ReplicationGroupSpec.ResourceSpec (ReplicationGroup.Spec rg')) =
        ReclaimRetain.

(** The table is consistent with its keys: every patch version it
    answers, other than the sentinel, is the minor version asked for, a
    dot, and a rest. *)
Definition PatchesExtendMinor : Prop :=
  forall minor,
    tableLookup minor <> UnsupportedVersion ->
    exists rest, tableLookup minor = minor +:+ "." +:+ rest.

(** *** Theorems *)

(** Facts about the runtime model. *)

Lemma HasPrefix_spec (s pre : string) :
  HasPrefix s pre = true <-> exists rest, s = pre +:+ rest.
Proof.
  unfold HasPrefix. revert s.
  induction pre as [|c pre IH]; intros [|d s]; simpl.
  - split; [intros _; exists ""; reflexivity | reflexivity].
  - split; [intros _; exists (String d s); reflexivity | reflexivity].
  - split; [discriminate | intros [rest Hr]; discriminate].
  - destruct (Ascii.ascii_dec c d) as [->|Hne].
    + rewrite IH. split.
      * intros [rest ->]. exists rest. reflexivity.
      * intros [rest Hr]. injection Hr as ->. exists rest. reflexivity.
    + split; [discriminate | intros [rest Hr]].
      change (String d s = String c (pre +:+ rest)) in Hr. congruence.
Qed.

Lemma append_assoc (a b c : string) : (a +:+ b) +:+ c = a +:+ (b +:+ c).
Proof.
  induction a as [|x a IH]; [reflexivity|].
  change (String x ((a +:+ b) +:+ c) = String x (a +:+ (b +:+ c))).
  rewrite IH. reflexivity.
Qed.

Lemma StringValue_empty (p : option string) :
  StringValue p = "" <-> p = None \/ p = Some "".
Proof.
  destruct p as [s|]; simpl.
  - split; [intros ->; right; reflexivity | intros [?|?]; congruence].
  - split; [left; reflexivity | reflexivity].
Qed.


Lemma eqb_empty_true (s : string) : s = "" -> String.eqb s "" = true.
Proof. intros ->. reflexivity. Qed.

Lemma eqb_empty_false (s : string) : s <> "" -> String.eqb s "" = false.
Proof. intros H. apply String.eqb_neq. exact H. Qed.

Lemma latestSupportedPatchVersion_unsupported (minor : string) :
  tableLookup minor = UnsupportedVersion ->
  latestSupportedPatchVersion minor =
    (None, Some (Errorf ("minor version " +:+ minor +:+
                         " is not currently supported"))).
Proof.
  unfold latestSupportedPatchVersion, tableLookup. intros ->.
  rewrite String.eqb_refl. reflexivity.
Qed.

Lemma latestSupportedPatchVersion_supported (minor : string) :
  tableLookup minor <> UnsupportedVersion ->
  latestSupportedPatchVersion minor = (Some (tableLookup minor), None).
Proof.
  unfold latestSupportedPatchVersion, tableLookup. intros H.
  apply String.eqb_neq in H. rewrite H. reflexivity.
Qed.

(** The resolver only ever touches the engine version. *)
Lemma resolveAWSClassInstanceValues_Others spec rc :
  ReplicationGroupParameters.Others (resolveAWSClassInstanceValues spec rc).1 =
  ReplicationGroupParameters.Others spec.
Proof.
  unfold resolveAWSClassInstanceValues.
  repeat (case_match; simpl in *; simplify_eq; try reflexivity).
Qed.

(** C1.  The version resolver follows the four-branch decision table, on
    every pair of a class version (empty when nil or the empty string) and
    a claim minor version.  Both empty: the parameters are left as they
    are (the version stays empty) and there is no error.  Class empty,
    claim not: the version becomes the table's patch for the claim's minor
    version, or the call fails with UnsupportedVersion when the table
    answers the sentinel.  Class not empty, claim empty: unchanged, no
    error.  Both not empty: unchanged and no error when the class version
    is the claim version, a dot, and a rest; VersionConflict otherwise. *)
Theorem resolveAWSClassInstanceValues_decision_table
    (spec : ReplicationGroupParameters.t Rest) (rc : RedisCluster.t) :
  let classVersion := StringValue (ReplicationGroupParameters.EngineVersion spec) in
  let claimVersion := RedisClusterSpec.EngineVersion (RedisCluster.Spec rc) in
  let out := resolveAWSClassInstanceValues spec rc in
  (classVersion = "" -> claimVersion = "" -> out = (spec, None)) /\
  (classVersion = "" -> claimVersion <> "" ->
     (tableLookup claimVersion = UnsupportedVersion ->
        out = (ReplicationGroupParameters.set_EngineVersion None spec,
               Some (ErrUnsupportedVersion claimVersion))) /\
     (tableLookup claimVersion <> UnsupportedVersion ->
        out = (ReplicationGroupParameters.set_EngineVersion
                 (Some (tableLookup claimVersion)) spec,
               None))) /\
  (classVersion <> "" -> claimVersion = "" -> out = (spec, None)) /\
  (classVersion <> "" -> claimVersion <> "" ->
     ((exists rest, classVersion = claimVersion +:+ "." +:+ rest) ->
        out = (spec, None)) /\
     (~ (exists rest, classVersion = claimVersion +:+ "." +:+ rest) ->
        out = (spec, Some (ErrVersionConflict classVersion claimVersion)))).
Proof.
  intros classVersion claimVersion out. subst out.
  unfold resolveAWSClassInstanceValues.
  fold classVersion claimVersion.
  split; [|split; [|split]].
  - intros Hc Hm. rewrite (eqb_empty_true _ Hc), (eqb_empty_true _ Hm).
    reflexivity.
  - intros Hc Hm. rewrite (eqb_empty_true _ Hc), (eqb_empty_false _ Hm). simpl.
    split; intros Hp.
    + rewrite (latestSupportedPatchVersion_unsupported _ Hp). reflexivity.
    + rewrite (latestSupportedPatchVersion_supported _ Hp). reflexivity.
  - intros Hc Hm. rewrite (eqb_empty_false _ Hc), (eqb_empty_true _ Hm).
    reflexivity.
  - intros Hc Hm. rewrite (eqb_empty_false _ Hc), (eqb_empty_false _ Hm). simpl.
    split; intros Hpre.
    + assert (HasPrefix classVersion (claimVersion +:+ ".") = true) as ->.
      { apply HasPrefix_spec. destruct Hpre as [rest Hr]. exists rest.
        rewrite Hr. symmetry. apply append_assoc. }
      reflexivity.
    + assert (HasPrefix classVersion (claimVersion +:+ ".") = false) as ->.
      { apply not_true_is_false. intros Hp. apply Hpre.
        apply HasPrefix_spec in Hp as [rest Hr]. exists rest.
        rewrite Hr. apply append_assoc. }
      reflexivity.
Qed.

(** With the three arguments of the expected kinds, the configurator's
    result is decided by the resolver's. *)
Lemma ConfigureReplicationGroup_expected_kinds rc rgc rg :
  let template := ReplicationGroupClass.SpecTemplate rgc in
  let class := ReplicationGroupClassSpecTemplate.ClassSpecTemplate template in
  let r := resolveAWSClassInstanceValues
             (ReplicationGroupClassSpecTemplate.ForProvider template) rc in
  ConfigureReplicationGroup (Claim_RedisCluster rc)
    (Class_ReplicationGroupClass rgc) (Managed_ReplicationGroup rg) =
  match r.2 with
  | Some e => (Managed_ReplicationGroup rg, Some (ErrResolve e))
  | None =>
      (Managed_ReplicationGroup
         (ReplicationGroup.set_Spec
            (ReplicationGroupSpec.mk
               (ResourceSpec.mk
                  (Some (SecretReference.mk (RedisCluster.UID rc)
                           (ClassSpecTemplate.WriteConnectionSecretsToNamespace class)))
                  (ClassSpecTemplate.ReclaimPolicy class))
               r.1)
            rg),
       None)
  end.
Proof.
  intros template class r. subst r template class.
  unfold ConfigureReplicationGroup. simpl.
  destruct (resolveAWSClassInstanceValues _ rc) as [fp [e|]]; reflexivity.
Qed.

(** C5 (amended).  After a successful [ConfigureReplicationGroup] the
    three arguments were of the expected kinds and the managed resource's
    spec holds: the class template's provider parameters with the engine
    version as the resolver left it, the connection-secret reference named
    by the claim's UID in the class's secret namespace, and the class
    template's own reclaim policy, which the configurator itself writes
    over the interim Retain. *)
Theorem ConfigureReplicationGroup_success
    (cm : Claim) (cs : Class Rest) (mg mg' : Managed Rest Obs) :
  ConfigureReplicationGroup cm cs mg = (mg', None) ->
  exists rc rgc rg,
    cm = Claim_RedisCluster rc /\
    cs = Class_ReplicationGroupClass rgc /\
    mg = Managed_ReplicationGroup rg /\
    let template := ReplicationGroupClass.SpecTemplate rgc in
    let class := ReplicationGroupClassSpecTemplate.ClassSpecTemplate template in
    let resolved :=
      (resolveAWSClassInstanceValues
         (ReplicationGroupClassSpecTemplate.ForProvider template) rc).1 in
    mg' = Managed_ReplicationGroup
            (ReplicationGroup.set_Spec
               (ReplicationGroupSpec.mk
                  (ResourceSpec.mk
                     (Some (SecretReference.mk (RedisCluster.UID rc)
                              (ClassSpecTemplate.WriteConnectionSecretsToNamespace class)))
                     (ClassSpecTemplate.ReclaimPolicy class))
                  resolved)
               rg) /\
    ReplicationGroupParameters.Others resolved =
      ReplicationGroupParameters.Others
        (ReplicationGroupClassSpecTemplate.ForProvider template).
Proof.
  destruct cm as [rc|? ?]; [|discriminate].
  destruct cs as [rgc|?]; [|discriminate].
  destruct mg as [rg|?]; [|discriminate].
  rewrite ConfigureReplicationGroup_expected_kinds.
  intros H. exists rc, rgc, rg. repeat split.
  - destruct (resolveAWSClassInstanceValues _ rc) as [fp [e|]]; simpl in *.
    + discriminate.
    + injection H as <-. reflexivity.
  - apply resolveAWSClassInstanceValues_Others.
Qed.

(** A wrong-kind error is never a wrapped error. *)
Lemma WrongKind_not_ErrResolve (e : error) : ~ WrongKind (ErrResolve e).
Proof. intros H. inversion H. Qed.

(** C6.  [ConfigureReplicationGroup] returns a wrong-kind error exactly
    when one of its three arguments is not of the expected kind; the claim
    is checked first, then the class, then the managed resource, and the
    error names the first offender. *)
Theorem ConfigureReplicationGroup_wrong_kind
    (cm : Claim) (cs : Class Rest) (mg : Managed Rest Obs) :
  let err := (ConfigureReplicationGroup cm cs mg).2 in
  ((exists e, err = Some e /\ WrongKind e) <->
   ~ (isRedisCluster cm /\ isReplicationGroupClass cs /\ isReplicationGroup mg)) /\
  (~ isRedisCluster cm ->
   err = Some (ErrWrongClaimKind (Claim_GetName cm))) /\
  (isRedisCluster cm -> ~ isReplicationGroupClass cs ->
   err = Some (ErrWrongClassKind (Class_GetName cs))) /\
  (isRedisCluster cm -> isReplicationGroupClass cs -> ~ isReplicationGroup mg ->
   err = Some (ErrWrongManagedKind (Managed_GetName mg))).
Proof.
  intros err. subst err.
  destruct cm as [rc|cn cu]; destruct cs as [rgc|sn]; destruct mg as [rg|mn];
    try rewrite ConfigureReplicationGroup_expected_kinds; simpl.
  2-8: split; [split|];
    [ intros _ (Hcm & Hcs & Hmg); simpl in *; tauto
    | intros _; eexists; split; [reflexivity|constructor]
    | repeat split; intros; simpl in *; solve [tauto | reflexivity] ].
  split; [split|].
  - intros (e & He & Hw) _.
    destruct (resolveAWSClassInstanceValues _ rc) as [fp [r|]]; simpl in He.
    + injection He as <-. exact (WrongKind_not_ErrResolve _ Hw).
    + discriminate.
  - intros Hnot. exfalso. apply Hnot. simpl. tauto.
  - repeat split; intros; simpl in *; tauto.
Qed.

(** C7.  Whenever [ConfigureReplicationGroup] returns an error, the
    managed resource is exactly as it was before the call, and the error
    is either the wrong-kind error of the failing check or the version
    resolver's error wrapped with the configurator's context. *)
Theorem ConfigureReplicationGroup_failure
    (cm : Claim) (cs : Class Rest) (mg : Managed Rest Obs) (e : error) :
  (ConfigureReplicationGroup cm cs mg).2 = Some e ->
  (ConfigureReplicationGroup cm cs mg).1 = mg /\
  (WrongKind e \/
   exists rc rgc r,
     cm = Claim_RedisCluster rc /\
     cs = Class_ReplicationGroupClass rgc /\
     (resolveAWSClassInstanceValues
        (ReplicationGroupClassSpecTemplate.ForProvider
           (ReplicationGroupClass.SpecTemplate rgc)) rc).2 = Some r /\
     e = Wrap r "cannot resolve AWS class instance values").
Proof.
  destruct cm as [rc|cn cu]; destruct cs as [rgc|sn]; destruct mg as [rg|mn];
    try rewrite ConfigureReplicationGroup_expected_kinds; simpl;
    try (intros [= <-]; split; [reflexivity|left; constructor]).
  destruct (resolveAWSClassInstanceValues _ rc) as [fp [r|]] eqn:Hr; simpl.
  - intros [= <-]. split; [reflexivity|]. right.
    exists rc, rgc, r. rewrite Hr. repeat split.
  - discriminate.
Qed.


(** *** Further properties of the resolver and the configurator *)

(** The resolver's switch, one equation per outcome. *)
Lemma resolveAWSClassInstanceValues_unfold spec rc :
  let classVersion := StringValue (ReplicationGroupParameters.EngineVersion spec) in
  let claimVersion := RedisClusterSpec.EngineVersion (RedisCluster.Spec rc) in
  resolveAWSClassInstanceValues spec rc =
  if String.eqb claimVersion "" then (spec, None)
  else if String.eqb classVersion "" then
    if String.eqb (tableLookup claimVersion) UnsupportedVersion
    then (ReplicationGroupParameters.set_EngineVersion None spec,
          Some (ErrUnsupportedVersion claimVersion))
    else (ReplicationGroupParameters.set_EngineVersion
            (Some (tableLookup claimVersion)) spec, None)
  else if HasPrefix classVersion (claimVersion +:+ ".") then (spec, None)
  else (spec, Some (ErrVersionConflict classVersion claimVersion)).
Proof.
  intros classVersion claimVersion.
  unfold resolveAWSClassInstanceValues, latestSupportedPatchVersion, tableLookup.
  fold classVersion claimVersion.
  destruct (String.eqb classVersion ""), (String.eqb claimVersion ""); simpl;
    try reflexivity.
  - destruct (String.eqb _ UnsupportedVersion); reflexivity.
  - destruct (HasPrefix classVersion _); reflexivity.
Qed.

Lemma HasPrefix_dot (s pre : string) :
  HasPrefix s (pre +:+ ".") = true <-> exists rest, s = pre +:+ "." +:+ rest.
Proof.
  rewrite HasPrefix_spec. split; intros [rest ->]; exists rest.
  - apply append_assoc.
  - symmetry. apply append_assoc.
Qed.

Lemma extends_nonempty (s pre rest : string) : s = pre +:+ "." +:+ rest -> s <> "".
Proof. intros -> H. destruct pre; discriminate. Qed.

(** X1.  The resolver fails in exactly two situations: the class names no
    version, the claim names one, and the table answers the sentinel for
    it; or both name a version and the class version is not the claim
    version, a dot, and a rest. *)
Theorem resolveAWSClassInstanceValues_error_iff
    (spec : ReplicationGroupParameters.t Rest) (rc : RedisCluster.t) :
  let classVersion := StringValue (ReplicationGroupParameters.EngineVersion spec) in
  let claimVersion := RedisClusterSpec.EngineVersion (RedisCluster.Spec rc) in
  is_Some (resolveAWSClassInstanceValues spec rc).2 <->
  (classVersion = "" /\ claimVersion <> "" /\
   tableLookup claimVersion = UnsupportedVersion) \/
  (classVersion <> "" /\ claimVersion <> "" /\
   ~ exists rest, classVersion = claimVersion +:+ "." +:+ rest).
Proof.
  intros classVersion claimVersion.
  rewrite resolveAWSClassInstanceValues_unfold. fold classVersion claimVersion.
  destruct (String.eqb_spec claimVersion "") as [Hm|Hm]; simpl.
  { split; [intros [? ?]; discriminate | tauto]. }
  destruct (String.eqb_spec classVersion "") as [Hc|Hc].
  - destruct (String.eqb_spec (tableLookup claimVersion) UnsupportedVersion)
      as [Hp|Hp]; simpl.
    + split; [tauto | eauto].
    + split; [intros [? ?]; discriminate | tauto].
  - destruct (HasPrefix classVersion (claimVersion +:+ ".")) eqn:Hpre; simpl.
    + apply HasPrefix_dot in Hpre.
      split; [intros [? ?]; discriminate | tauto].
    + split; [|eauto]. intros _. right. repeat split; try assumption.
      intros Hex. apply HasPrefix_dot in Hex. congruence.
Qed.

(** X2.  A minor version that is no key of the table is looked up as the
    empty string, Go's zero value.  It is reported unsupported when the
    sentinel is the empty string; with any other sentinel the lookup
    succeeds and returns the empty version. *)
Theorem latestSupportedPatchVersion_missing_key (minorVersion : string) :
  LatestSupportedPatchVersion !! minorVersion = None ->
  (UnsupportedVersion = "" ->
   latestSupportedPatchVersion minorVersion =
     (None, Some (Errorf ("minor version " +:+ minorVersion +:+
                          " is not currently supported")))) /\
  (UnsupportedVersion <> "" ->
   latestSupportedPatchVersion minorVersion = (Some "", None)).
Proof.
  intros Hmiss. unfold latestSupportedPatchVersion. rewrite Hmiss.
  change (default "" (@None string)) with "".
  split; intros Hs.
  - rewrite Hs. reflexivity.
  - assert (String.eqb "" UnsupportedVersion = false) as ->
      by (apply String.eqb_neq; congruence).
    reflexivity.
Qed.

(** X3.  When the table is consistent with its keys, resolving twice is
    resolving once: the parameters the resolver returns are left as they
    are by a second run with the same claim, which ends the same way. *)
Theorem resolveAWSClassInstanceValues_idempotent
    (spec : ReplicationGroupParameters.t Rest) (rc : RedisCluster.t) :
  PatchesExtendMinor ->
  resolveAWSClassInstanceValues (resolveAWSClassInstanceValues spec rc).1 rc =
  resolveAWSClassInstanceValues spec rc.
Proof.
  intros Htable.
  rewrite (resolveAWSClassInstanceValues_unfold spec rc).
  set (classVersion := StringValue (ReplicationGroupParameters.EngineVersion spec)).
  set (claimVersion := RedisClusterSpec.EngineVersion (RedisCluster.Spec rc)).
  destruct (String.eqb_spec claimVersion "") as [Hm|Hm]; simpl.
  { rewrite resolveAWSClassInstanceValues_unfold. fold claimVersion.
    rewrite (eqb_empty_true _ Hm). reflexivity. }
  destruct (String.eqb_spec classVersion "") as [Hc|Hc].
  - destruct (String.eqb_spec (tableLookup claimVersion) UnsupportedVersion)
      as [Hp|Hp]; simpl.
    + rewrite resolveAWSClassInstanceValues_unfold. simpl. fold claimVersion.
      rewrite (eqb_empty_false _ Hm), Hp, String.eqb_refl. reflexivity.
    + rewrite resolveAWSClassInstanceValues_unfold. simpl. fold claimVersion.
      destruct (Htable _ Hp) as [rest Hrest].
      rewrite (eqb_empty_false _ Hm).
      rewrite (eqb_empty_false _ (extends_nonempty _ _ _ Hrest)).
      assert (HasPrefix (tableLookup claimVersion) (claimVersion +:+ ".") = true)
        as -> by (apply HasPrefix_dot; eauto).
      reflexivity.
  - destruct (HasPrefix classVersion (claimVersion +:+ ".")) eqn:Hpre; simpl;
      rewrite resolveAWSClassInstanceValues_unfold;
      fold classVersion claimVersion;
      rewrite (eqb_empty_false _ Hm), (eqb_empty_false _ Hc), Hpre; reflexivity.
Qed.

(** X4.  When the table is consistent with its keys and the claim names a
    version, a successful resolution always leaves an engine version that
    is the claim's version, a dot, and a rest. *)
Theorem resolved_version_extends_claim
    (spec : ReplicationGroupParameters.t Rest) (rc : RedisCluster.t) :
  let claimVersion := RedisClusterSpec.EngineVersion (RedisCluster.Spec rc) in
  PatchesExtendMinor ->
  claimVersion <> "" ->
  (resolveAWSClassInstanceValues spec rc).2 = None ->
  exists rest,
    StringValue (ReplicationGroupParameters.EngineVersion
                   (resolveAWSClassInstanceValues spec rc).1) =
    claimVersion +:+ "." +:+ rest.
Proof.
  intros claimVersion Htable Hm.
  rewrite resolveAWSClassInstanceValues_unfold. fold claimVersion.
  set (classVersion := StringValue (ReplicationGroupParameters.EngineVersion spec)).
  rewrite (eqb_empty_false _ Hm).
  destruct (String.eqb_spec classVersion "") as [Hc|Hc].
  - destruct (String.eqb_spec (tableLookup claimVersion) UnsupportedVersion)
      as [Hp|Hp]; simpl; [discriminate|].
    intros _. exact (Htable _ Hp).
  - destruct (HasPrefix classVersion (claimVersion +:+ ".")) eqn:Hpre; simpl;
      [|discriminate].
    intros _. apply HasPrefix_dot. exact Hpre.
Qed.

(** X5.  The configurator succeeds exactly when the claim, the class and
    the managed resource are of the expected kinds and the resolver
    accepts the class template's parameters for the claim. *)
Theorem ConfigureReplicationGroup_succeeds_iff
    (cm : Claim) (cs : Class Rest) (mg : Managed Rest Obs) :
  (ConfigureReplicationGroup cm cs mg).2 = None <->
  exists rc rgc rg,
    cm = Claim_RedisCluster rc /\
    cs = Class_ReplicationGroupClass rgc /\
    mg = Managed_ReplicationGroup rg /\
    (resolveAWSClassInstanceValues
       (ReplicationGroupClassSpecTemplate.ForProvider
          (ReplicationGroupClass.SpecTemplate rgc)) rc).2 = None.
Proof.
  destruct cm as [rc|cn cu]; destruct cs as [rgc|sn]; destruct mg as [rg|mn];
    try rewrite ConfigureReplicationGroup_expected_kinds; simpl.
  2-8: split; [discriminate | intros (? & ? & ? & ? & ? & ? & _); discriminate].
  destruct (resolveAWSClassInstanceValues _ rc) as [fp [e|]] eqn:Hr; simpl.
  - split; [discriminate|].
    intros (rc' & rgc' & rg' & [= <-] & [= <-] & _ & H).
    rewrite Hr in H. discriminate.
  - split; [|reflexivity]. intros _. exists rc, rgc, rg.
    rewrite Hr. repeat split.
Qed.

(** X6.  Configuring is idempotent: a second run on the managed resource
    the first run left, with the same claim and class, leaves the same
    managed resource and ends the same way. *)
Theorem ConfigureReplicationGroup_idempotent
    (cm : Claim) (cs : Class Rest) (mg : Managed Rest Obs) :
  ConfigureReplicationGroup cm cs (ConfigureReplicationGroup cm cs mg).1 =
  ConfigureReplicationGroup cm cs mg.
Proof.
  destruct cm as [rc|cn cu]; destruct cs as [rgc|sn]; destruct mg as [rg|mn];
    try reflexivity.
  rewrite (ConfigureReplicationGroup_expected_kinds rc rgc rg).
  destruct (resolveAWSClassInstanceValues _ rc).2 as [e|] eqn:Hr; cbn [fst].
  - rewrite ConfigureReplicationGroup_expected_kinds, Hr. reflexivity.
  - rewrite ConfigureReplicationGroup_expected_kinds, Hr. reflexivity.
Qed.

(** X7.  A successful run replaces the whole spec of the managed resource
    and nothing else: the name and the observed status are kept, and the
    result is the same whatever spec the managed resource had before. *)
Theorem ConfigureReplicationGroup_overwrites_spec
    (cm : Claim) (cs : Class Rest) (rg : ReplicationGroup.t Rest Obs)
    (mg' : Managed Rest Obs) :
  ConfigureReplicationGroup cm cs (Managed_ReplicationGroup rg) = (mg', None) ->
  exists rg',
    mg' = Managed_ReplicationGroup rg' /\
    ReplicationGroup.Name rg' = ReplicationGroup.Name rg /\
    ReplicationGroup.Status rg' = ReplicationGroup.Status rg /\
    forall previous,
      ConfigureReplicationGroup cm cs
        (Managed_ReplicationGroup (ReplicationGroup.set_Spec previous rg)) =
      (mg', None).
Proof.
  destruct cm as [rc|cn cu]; [|discriminate].
  destruct cs as [rgc|sn]; [|discriminate].
  rewrite ConfigureReplicationGroup_expected_kinds.
  destruct (resolveAWSClassInstanceValues _ rc).2 as [e|] eqn:Hr;
    [discriminate|].
  intros [= <-]. eexists. split; [reflexivity|].
  split; [reflexivity|]. split; [reflexivity|].
  intros previous.
  rewrite ConfigureReplicationGroup_expected_kinds, Hr. reflexivity.
Qed.

End Configurator.

(** *** The theorems at the example objects *)

Local Abbreviation configure :=
  (ConfigureReplicationGroup exampleTable exampleUnsupported
     exampleClaimKind exampleClassKind exampleManagedKind string unit).

Local Abbreviation resolve :=
  (resolveAWSClassInstanceValues exampleTable exampleUnsupported string).

(** The examples of the specification: claim 6.2 and no class version
    gives the table's patch; class 6.2.4 is kept; class 6.0.5 conflicts;
    a minor version missing from the table is unsupported. *)
Example resolve_claim_only :
  resolve (ReplicationGroupParameters.mk None "cache.t3.medium")
          (RedisCluster.mk "my-redis" "3f1c9a52" (RedisClusterSpec.mk "6.2")) =
  (ReplicationGroupParameters.mk (Some "6.2.6") "cache.t3.medium", None).
Proof. vm_compute. reflexivity. Qed.

Example resolve_class_patch :
  resolve (ReplicationGroupParameters.mk (Some "6.2.4") "cache.t3.medium")
          (RedisCluster.mk "my-redis" "3f1c9a52" (RedisClusterSpec.mk "6.2")) =
  (ReplicationGroupParameters.mk (Some "6.2.4") "cache.t3.medium", None).
Proof. vm_compute. reflexivity. Qed.

Example resolve_conflict :
  resolve (ReplicationGroupParameters.mk (Some "6.0.5") "cache.t3.medium")
          (RedisCluster.mk "my-redis" "3f1c9a52" (RedisClusterSpec.mk "6.2")) =
  (ReplicationGroupParameters.mk (Some "6.0.5") "cache.t3.medium",
   Some (ErrVersionConflict "6.0.5" "6.2")).
Proof. vm_compute. reflexivity. Qed.

Example resolve_unsupported :
  resolve (ReplicationGroupParameters.mk (Some "") "cache.t3.medium")
          (RedisCluster.mk "my-redis" "3f1c9a52" (RedisClusterSpec.mk "7.9")) =
  (ReplicationGroupParameters.mk None "cache.t3.medium",
   Some (ErrUnsupportedVersion "7.9")).
Proof. vm_compute. reflexivity. Qed.

(** The table is consulted only when the class names no version: a class
    version that extends the claim's minor version is kept even when the
    table does not know that minor version. *)
Example resolve_class_patch_of_unknown_minor :
  resolve (ReplicationGroupParameters.mk (Some "7.9.1") "cache.t3.medium")
          (RedisCluster.mk "my-redis" "3f1c9a52" (RedisClusterSpec.mk "7.9")) =
  (ReplicationGroupParameters.mk (Some "7.9.1") "cache.t3.medium", None).
Proof. vm_compute. reflexivity. Qed.

(** A claim of another kind is reported first, by name. *)
Example configure_wrong_claim_kind :
  configure (Claim_other "my-bucket" "77aa01")
    (Class_other "some-class") exampleManaged =
  (exampleManaged,
   Some (Errorf "expected resource claim my-bucket to be cache.crossplane.io/v1alpha1, Kind=RedisCluster")).
Proof. vm_compute. reflexivity. Qed.

(** C5, as stated, fails.  With a class whose reclaim policy is Delete the
    configured managed resource has reclaim policy Delete, not Retain; and
    with a claim asking for 6.2 and a class without a version the
    configured provider parameters carry 6.2.6, which the class template
    does not. *)
Lemma ConfiguredWithInterimRetain_fails :
  ~ ConfiguredWithInterimRetain exampleTable exampleUnsupported
      exampleClaimKind exampleClassKind exampleManagedKind string unit
      (exampleClaim "") (exampleClass ReclaimDelete None) exampleManaged /\
  ~ ConfiguredWithInterimRetain exampleTable exampleUnsupported
      exampleClaimKind exampleClassKind exampleManagedKind string unit
      (exampleClaim "6.2") (exampleClass ReclaimRetain None) exampleManaged.
Proof.
  split; intros H.
  - edestruct H as (rg' & Hmg & _ & Hpolicy);
      [reflexivity | vm_compute; reflexivity |].
    injection Hmg as <-. vm_compute in Hpolicy. discriminate.
  - edestruct H as (rg' & Hmg & Hparams & _);
      [reflexivity | vm_compute; reflexivity |].
    injection Hmg as <-. vm_compute in Hparams. discriminate.
Qed.

(** C5 (amended), at the class with reclaim policy Delete and a claim
    asking for 6.2. *)
Lemma ConfigureReplicationGroup_success_witness :
  let configured : Managed string unit :=
    Managed_ReplicationGroup
      (ReplicationGroup.mk "my-redis-x7k2p"
         (ReplicationGroupSpec.mk
            (ResourceSpec.mk
               (Some (SecretReference.mk "3f1c9a52" "crossplane-system"))
               ReclaimDelete)
            (ReplicationGroupParameters.mk (Some "6.2.6") "cache.t3.medium"))
         tt) in
  configure (exampleClaim "6.2") (exampleClass ReclaimDelete None) exampleManaged =
    (configured, None) /\
  exists rc rgc rg,
    exampleClaim "6.2" = Claim_RedisCluster rc /\
    exampleClass ReclaimDelete None = Class_ReplicationGroupClass rgc /\
    exampleManaged = Managed_ReplicationGroup rg /\
    let template := ReplicationGroupClass.SpecTemplate rgc in
    let class := ReplicationGroupClassSpecTemplate.ClassSpecTemplate template in
    let resolved :=
      (resolve (ReplicationGroupClassSpecTemplate.ForProvider template) rc).1 in
    configured =
      Managed_ReplicationGroup
        (ReplicationGroup.set_Spec
           (ReplicationGroupSpec.mk
              (ResourceSpec.mk
                 (Some (SecretReference.mk (RedisCluster.UID rc)
                          (ClassSpecTemplate.WriteConnectionSecretsToNamespace class)))
                 (ClassSpecTemplate.ReclaimPolicy class))
              resolved)
           rg) /\
    ReplicationGroupParameters.Others resolved =
      ReplicationGroupParameters.Others
        (ReplicationGroupClassSpecTemplate.ForProvider template).
Proof.
  intros configured. split; [vm_compute; reflexivity|].
  apply (ConfigureReplicationGroup_success exampleTable exampleUnsupported
           exampleClaimKind exampleClassKind exampleManagedKind string unit).
  vm_compute. reflexivity.
Defined.

(** C7, at a class version that conflicts with the claim's. *)
Lemma ConfigureReplicationGroup_failure_witness :
  (configure (exampleClaim "6.2") (exampleClass ReclaimDelete (Some "6.0.5"))
     exampleManaged).2 =
    Some (Wrap (ErrVersionConflict "6.0.5" "6.2")
            "cannot resolve AWS class instance values") /\
  (configure (exampleClaim "6.2") (exampleClass ReclaimDelete (Some "6.0.5"))
     exampleManaged).1 = exampleManaged.
Proof.
  split; [vm_compute; reflexivity|].
  apply (ConfigureReplicationGroup_failure exampleTable exampleUnsupported
           exampleClaimKind exampleClassKind exampleManagedKind string unit
           (exampleClaim "6.2") (exampleClass ReclaimDelete (Some "6.0.5"))
           exampleManaged
           (Wrap (ErrVersionConflict "6.0.5" "6.2")
              "cannot resolve AWS class instance values")).
  vm_compute. reflexivity.
Defined.

(** *** The further properties at the example objects *)

(** The example table is consistent with its keys. *)
Lemma exampleTable_consistent : PatchesExtendMinor exampleTable exampleUnsupported.
Proof.
  intros minor. unfold tableLookup, exampleTable, exampleUnsupported.
  destruct (decide (minor = "6.2")) as [->|H62].
  { intros _. exists "6". vm_compute. reflexivity. }
  rewrite lookup_insert_ne by congruence.
  destruct (decide (minor = "5.0")) as [->|H50].
  { intros _. exists "6". vm_compute. reflexivity. }
  rewrite lookup_insert_ne by congruence.
  rewrite lookup_empty. simpl. congruence.
Qed.

(** X2, at a minor version the example table does not have. *)
Lemma latestSupportedPatchVersion_missing_key_witness :
  exampleTable !! "7.9" = None /\
  latestSupportedPatchVersion exampleTable exampleUnsupported "7.9" =
    (None, Some (Errorf "minor version 7.9 is not currently supported")).
Proof.
  split; [vm_compute; reflexivity|].
  apply (latestSupportedPatchVersion_missing_key exampleTable exampleUnsupported "7.9");
    [vm_compute; reflexivity | reflexivity].
Defined.

(** X3, at a claim asking for 6.2 and parameters without a version. *)
Lemma resolveAWSClassInstanceValues_idempotent_witness :
  resolve (ReplicationGroupParameters.mk (Some "6.2.6") "cache.t3.medium")
          (RedisCluster.mk "my-redis" "3f1c9a52" (RedisClusterSpec.mk "6.2")) =
  resolve (ReplicationGroupParameters.mk None "cache.t3.medium")
          (RedisCluster.mk "my-redis" "3f1c9a52" (RedisClusterSpec.mk "6.2")).
Proof.
  apply (resolveAWSClassInstanceValues_idempotent exampleTable exampleUnsupported
           string (ReplicationGroupParameters.mk None "cache.t3.medium")
           (RedisCluster.mk "my-redis" "3f1c9a52" (RedisClusterSpec.mk "6.2"))).
  exact exampleTable_consistent.
Defined.

(** Without a consistent table the second run can fail where the first
    succeeded: the skewed table answers 7.0.1 for 6.2, which the second
    run rejects as no patch of 6.2. *)
Example resolve_twice_skewed_table :
  let rc := RedisCluster.mk "my-redis" "3f1c9a52" (RedisClusterSpec.mk "6.2") in
  let once := resolveAWSClassInstanceValues exampleSkewedTable exampleUnsupported
                string (ReplicationGroupParameters.mk None "cache.t3.medium") rc in
  once = (ReplicationGroupParameters.mk (Some "7.0.1") "cache.t3.medium", None) /\
  resolveAWSClassInstanceValues exampleSkewedTable exampleUnsupported string once.1 rc =
    (ReplicationGroupParameters.mk (Some "7.0.1") "cache.t3.medium",
     Some (ErrVersionConflict "7.0.1" "6.2")).
Proof. split; vm_compute; reflexivity. Qed.

(** X4, at a claim asking for 6.2 and parameters without a version. *)
Lemma resolved_version_extends_claim_witness :
  exists rest,
    StringValue
      (ReplicationGroupParameters.EngineVersion
         (resolve (ReplicationGroupParameters.mk None "cache.t3.medium")
            (RedisCluster.mk "my-redis" "3f1c9a52" (RedisClusterSpec.mk "6.2"))).1) =
    "6.2" +:+ "." +:+ rest.
Proof.
  apply (resolved_version_extends_claim exampleTable exampleUnsupported
           string (ReplicationGroupParameters.mk None "cache.t3.medium")
           (RedisCluster.mk "my-redis" "3f1c9a52" (RedisClusterSpec.mk "6.2"))).
  - exact exampleTable_consistent.
  - discriminate.
  - vm_compute. reflexivity.
Defined.

(** X7, at the example managed resource. *)
Lemma ConfigureReplicationGroup_overwrites_spec_witness :
  let rg : ReplicationGroup.t string unit :=
    ReplicationGroup.mk "my-redis-x7k2p"
      (ReplicationGroupSpec.mk (ResourceSpec.mk None "")
         (ReplicationGroupParameters.mk None ""))
      tt in
  let configured : Managed string unit :=
    Managed_ReplicationGroup
      (ReplicationGroup.mk "my-redis-x7k2p"
         (ReplicationGroupSpec.mk
            (ResourceSpec.mk
               (Some (SecretReference.mk "3f1c9a52" "crossplane-system"))
               ReclaimDelete)
            (ReplicationGroupParameters.mk (Some "6.2.6") "cache.t3.medium"))
         tt) in
  configure (exampleClaim "6.2") (exampleClass ReclaimDelete None)
    (Managed_ReplicationGroup rg) = (configured, None) /\
  exists rg',
    configured = Managed_ReplicationGroup rg' /\
    ReplicationGroup.Name rg' = ReplicationGroup.Name rg /\
    ReplicationGroup.Status rg' = ReplicationGroup.Status rg /\
    forall previous,
      configure (exampleClaim "6.2") (exampleClass ReclaimDelete None)
        (Managed_ReplicationGroup (ReplicationGroup.set_Spec previous rg)) =
      (configured, None).
Proof.
  intros rg configured. split; [vm_compute; reflexivity|].
  apply (ConfigureReplicationGroup_overwrites_spec exampleTable exampleUnsupported
           exampleClaimKind exampleClassKind exampleManagedKind string unit).
  vm_compute. reflexivity.
Defined.

End Cache.

(** ** Theorems about [zz_conversions.go] *)

Module Conversions.
Import UserPoolClient.

(** *** The copy patterns *)

Lemma copyPtr_id {A : Type} (p : option A) : copyPtr p = p.
Proof. destruct p; reflexivity. Qed.

Lemma copyTime_fmap (t : option Go.Time) : copyTime t = metav1.Time.mk <$> t.
Proof. destruct t; reflexivity. Qed.

(** The loop copies a slice without nil elements behind what was built
    so far, and panics on any other. *)
Lemma appendStrings_nonNil (xs f : list (option string)) :
  forallb nonNil xs = true -> appendStrings f xs = Some (f ++ xs)%list.
Proof.
  revert f. induction xs as [|[elem|] xs IH]; intros f H; simpl in *.
  - rewrite app_nil_r. reflexivity.
  - rewrite (IH _ H), <- app_assoc. reflexivity.
  - discriminate.
Qed.

Lemma appendStrings_nil (xs f : list (option string)) :
  forallb nonNil xs = false -> appendStrings f xs = None.
Proof.
  revert f. induction xs as [|[elem|] xs IH]; intros f H; simpl in *.
  - discriminate.
  - apply IH, H.
  - reflexivity.
Qed.

Lemma copySlice_nonNil (xs : StringSlice) :
  elementsNonNil xs = true -> copySlice xs = Some xs.
Proof.
  destruct xs as [l|]; simpl; [|reflexivity].
  intros H. rewrite (appendStrings_nonNil l [] H). reflexivity.
Qed.

Lemma copySlice_nil (xs : StringSlice) :
  elementsNonNil xs = false -> copySlice xs = None.
Proof.
  destruct xs as [l|]; simpl; [|discriminate].
  intros H. rewrite (appendStrings_nil l [] H). reflexivity.
Qed.

(** Copying every slice of a conversion whose slices are known to be
    free of nil elements. *)
Ltac copy_slices H :=
  simpl in H;
  repeat (apply andb_prop in H; destruct H as [? H]);
  rewrite !copySlice_nonNil by assumption;
  simpl.

(** A conversion that returns has passed every loop: its first loop did
    not panic, and so on for the conversion that follows it. *)
Lemma bind_copySlice_is_Some {B : Type} (xs : StringSlice)
    (k : StringSlice -> option B) :
  is_Some (copySlice xs ≫= k) <->
  elementsNonNil xs = true /\ is_Some (k xs).
Proof.
  destruct (elementsNonNil xs) eqn:E.
  - rewrite (copySlice_nonNil xs E). simpl. tauto.
  - rewrite (copySlice_nil xs E). simpl. split.
    + intros [? ?]. discriminate.
    + intros [? _]. discriminate.
Qed.

Lemma analyticsFromSDK_same (a : option svcsdk.AnalyticsConfigurationType.t) :
  option_Forall2 sameAnalytics (copyStruct analyticsFromSDK a) a.
Proof.
  destruct a as [[]|]; constructor.
  unfold sameAnalytics; simpl; rewrite !copyPtr_id; repeat split.
Qed.

Lemma tokenUnitsFromSDK_same (a : option svcsdk.TokenValidityUnitsType.t) :
  option_Forall2 sameTokenUnits (copyStruct tokenUnitsFromSDK a) a.
Proof.
  destruct a as [[]|]; constructor.
  unfold sameTokenUnits; simpl; rewrite !copyPtr_id; repeat split.
Qed.

Lemma analyticsToSDK_same (a : option svcapitypes.AnalyticsConfigurationType.t) :
  option_Forall2 sameAnalytics a (copyStruct analyticsToSDK a).
Proof.
  destruct a as [[]|]; constructor.
  unfold sameAnalytics; simpl; rewrite !copyPtr_id; repeat split.
Qed.

Lemma tokenUnitsToSDK_same (a : option svcapitypes.TokenValidityUnitsType.t) :
  option_Forall2 sameTokenUnits a (copyStruct tokenUnitsToSDK a).
Proof.
  destruct a as [[]|]; constructor.
  unfold sameTokenUnits; simpl; rewrite !copyPtr_id; repeat split.
Qed.

Lemma analytics_round_trip (a : option svcapitypes.AnalyticsConfigurationType.t) :
  copyStruct analyticsFromSDK (copyStruct analyticsToSDK a) = a.
Proof. destruct a as [[]|]; simpl; [|reflexivity]. unfold analyticsFromSDK; simpl. rewrite !copyPtr_id. reflexivity. Qed.

Lemma tokenUnits_round_trip (a : option svcapitypes.TokenValidityUnitsType.t) :
  copyStruct tokenUnitsFromSDK (copyStruct tokenUnitsToSDK a) = a.
Proof. destruct a as [[]|]; simpl; [|reflexivity]. unfold tokenUnitsFromSDK; simpl. rewrite !copyPtr_id. reflexivity. Qed.

(** *** The describe response *)

(** C10.  [GenerateUserPoolClient] returns a resource exactly on the
    responses whose [UserPoolClient] member is not nil and whose eight
    string slices hold no nil element pointer; on every other response it
    panics. *)
Theorem GenerateUserPoolClient_domain (resp : svcsdk.DescribeUserPoolClientOutput.t) :
  is_Some (GenerateUserPoolClient resp) <-> inDomain resp = true.
Proof.
  destruct resp as [[u|]]; unfold GenerateUserPoolClient, inDomain; simpl.
  - rewrite !bind_copySlice_is_Some, !andb_true_iff.
    split.
    + intros H. decompose [and] H. repeat split; assumption.
    + intros H. decompose [and] H. repeat split; eauto.
  - split; [intros [? ?]; discriminate | discriminate].
Qed.

(** C3 (amended).  On a response in the domain of the conversion, the
    resource it returns has every user-settable field of the response in
    its desired state and every server-assigned field in its observed
    state, absent where the response has none. *)
Theorem GenerateUserPoolClient_splits (resp : svcsdk.DescribeUserPoolClientOutput.t) :
  inDomain resp = true -> SplitsResponse resp.
Proof.
  destruct resp as [[u|]]; unfold inDomain; simpl; [|discriminate].
  intros H.
  unfold SplitsResponse, GenerateUserPoolClient. simpl.
  exists u. eexists. split; [reflexivity|].
  copy_slices H.
  split; [reflexivity|]. simpl.
  rewrite !copyPtr_id, !copyTime_fmap.
  repeat split; auto using analyticsFromSDK_same, tokenUnitsFromSDK_same.
Qed.

(** C3, as stated, fails: on a response one of whose OAuth flows is a nil
    pointer the conversion panics, so no field is written at all. *)
Lemma SplitsResponse_fails :
  ~ SplitsResponse (exampleResponse (Some [Some "code"; None])).
Proof.
  intros (u & cr & _ & H & _). vm_compute in H. discriminate.
Qed.

(** C3 (amended), at a response with one OAuth flow. *)
Lemma GenerateUserPoolClient_splits_witness :
  inDomain (exampleResponse (Some [Some "code"])) = true /\
  SplitsResponse (exampleResponse (Some [Some "code"])).
Proof.
  split; [reflexivity|].
  apply GenerateUserPoolClient_splits. reflexivity.
Defined.

(** *** The create and update requests *)

(** C4 (amended).  For a resource whose desired state has no nil element
    pointer in its string slices, both requests are built.  The create
    request has each of the nineteen fields of the desired state set
    exactly when the desired state has it, to the same value, and its
    user pool is not set.  The update request has each field of the
    desired state other than [GenerateSecret] set exactly when the
    desired state has it, to the same value; its client and user pool
    identifiers are set exactly when they were observed
    ([Status.AtProvider]), to the observed values; and [GenerateSecret]
    is never sent: the request is the one built for the resource without
    it. *)
Theorem Generate_requests_carry_spec (cr : svcapitypes.UserPoolClient.t) :
  let p := svcapitypes.UserPoolClientSpec.ForProvider
             (svcapitypes.UserPoolClient.Spec cr) in
  let o := svcapitypes.UserPoolClientStatus.AtProvider
             (svcapitypes.UserPoolClient.Status cr) in
  parametersWellFormed cr = true ->
  (exists r,
     GenerateCreateUserPoolClientInput cr = Some r /\
     CreateCarries p r /\
     CI.UserPoolId r = None) /\
  (exists r,
     GenerateUpdateUserPoolClientInput cr = Some r /\
     UpdateCarries p r /\
     UI.ClientId r = O.ClientID o /\
     UI.UserPoolId r = O.UserPoolID o /\
     GenerateUpdateUserPoolClientInput (clearGenerateSecret cr) = Some r).
Proof.
  destruct cr as [[p] [o]]. unfold parametersWellFormed. simpl. intros H.
  unfold GenerateCreateUserPoolClientInput, GenerateUpdateUserPoolClientInput,
    clearGenerateSecret.
  simpl.
  copy_slices H.
  split; (eexists; split; [reflexivity|]).
  - unfold CreateCarries. simpl. rewrite !copyPtr_id.
    repeat split; auto using analyticsToSDK_same, tokenUnitsToSDK_same.
  - unfold UpdateCarries. simpl. rewrite !copyPtr_id.
    repeat split; auto using analyticsToSDK_same, tokenUnitsToSDK_same.
Qed.

(** The fields of the requests that do not come from the desired state:
    the update request is addressed by the observed client and user pool
    identifiers, and the create request's user pool is not set here. *)
Lemma Generate_requests_identity (cr : svcapitypes.UserPoolClient.t) :
  let o := svcapitypes.UserPoolClientStatus.AtProvider
             (svcapitypes.UserPoolClient.Status cr) in
  (forall r, GenerateUpdateUserPoolClientInput cr = Some r ->
     UI.ClientId r = O.ClientID o /\ UI.UserPoolId r = O.UserPoolID o) /\
  (forall r, GenerateCreateUserPoolClientInput cr = Some r ->
     CI.UserPoolId r = None).
Proof.
  destruct cr as [[p] [o]]. simpl.
  unfold GenerateUpdateUserPoolClientInput, GenerateCreateUserPoolClientInput.
  simpl. split; intros r H.
  - repeat (apply bind_Some in H; destruct H as (? & _ & H)).
    injection H as <-. simpl. rewrite !copyPtr_id. split; reflexivity.
  - repeat (apply bind_Some in H; destruct H as (? & _ & H)).
    injection H as <-. reflexivity.
Qed.

(** C4, as stated, fails, in three ways.  With a nil pointer among the
    OAuth flows of the desired state, building the create request panics
    and nothing is sent.  With [GenerateSecret] present in the desired
    state, the update request does not carry it.  And with a client
    identifier observed, the update request has its client set, which no
    field of the desired state accounts for. *)
Lemma RequestsCarrySpec_fails :
  ~ RequestsCarrySpec (exampleFreshResource (Some [Some "code"; None]) None) /\
  ~ RequestsCarrySpec (exampleFreshResource (Some [Some "code"]) (Some true)) /\
  ~ RequestsCarrySpec (exampleResource (Some [Some "code"]) None (Some "4h57kf1")).
Proof.
  split; [|split].
  - intros [(r & H & _) _]. vm_compute in H. discriminate.
  - intros [_ (r & _ & _ & Hsecret & _)]. vm_compute in Hsecret. discriminate.
  - intros [_ (r & H & _ & _ & Hclient & _)].
    vm_compute in H. injection H as <-.
    vm_compute in Hclient. discriminate.
Qed.

(** The second failure is of the update request alone: on the fresh
    resource that asks for a generated secret, the create request carries
    the secret and the update request is the one of the resource that
    does not ask for it. *)
Example GenerateSecret_create_only :
  (CI.GenerateSecret <$>
     GenerateCreateUserPoolClientInput
       (exampleFreshResource (Some [Some "code"]) (Some true))) =
    Some (Some true) /\
  GenerateUpdateUserPoolClientInput
    (exampleFreshResource (Some [Some "code"]) (Some true)) =
  GenerateUpdateUserPoolClientInput
    (exampleFreshResource (Some [Some "code"]) None).
Proof. split; vm_compute; reflexivity. Qed.

(** C4 (amended), at a resource with one OAuth flow that asks for a
    generated secret and whose client was observed. *)
Lemma Generate_requests_carry_spec_witness :
  let cr := exampleResource (Some [Some "code"]) (Some true) (Some "4h57kf1") in
  let p := exampleParameters (Some [Some "code"]) (Some true) in
  parametersWellFormed cr = true /\
  (exists r,
     GenerateCreateUserPoolClientInput cr = Some r /\
     CreateCarries p r /\
     CI.UserPoolId r = None) /\
  (exists r,
     GenerateUpdateUserPoolClientInput cr = Some r /\
     UpdateCarries p r /\
     UI.ClientId r = Some "4h57kf1" /\
     UI.UserPoolId r = Some "eu-west-1_AbCdEf" /\
     GenerateUpdateUserPoolClientInput (clearGenerateSecret cr) = Some r).
Proof.
  intros cr p. split; [reflexivity|].
  apply (Generate_requests_carry_spec cr). reflexivity.
Defined.

(** *** The round trip *)

(** C2 (amended).  For a desired state whose string slices hold no nil
    element pointer, the create request is built, its equivalent describe
    response converts back, and the desired state that comes back is the
    original one without [GenerateSecret]: every other field that was
    present has its original value and every field that was absent is
    absent. *)
Theorem round_trip_but_GenerateSecret (cr : svcapitypes.UserPoolClient.t) :
  parametersWellFormed cr = true ->
  forall srv,
    exists req cr',
      GenerateCreateUserPoolClientInput cr = Some req /\
      GenerateUserPoolClient (describeResponseOf req srv) = Some cr' /\
      svcapitypes.UserPoolClientSpec.ForProvider (svcapitypes.UserPoolClient.Spec cr') =
      withoutGenerateSecret
        (svcapitypes.UserPoolClientSpec.ForProvider (svcapitypes.UserPoolClient.Spec cr)).
Proof.
  destruct cr as [[p] [o]]. unfold parametersWellFormed. simpl.
  intros H srv.
  unfold GenerateCreateUserPoolClientInput. simpl.
  copy_slices H.
  eexists. eexists. split; [reflexivity|].
  unfold GenerateUserPoolClient, describeResponseOf. simpl.
  rewrite !copySlice_nonNil by assumption. simpl.
  split; [reflexivity|]. simpl.
  unfold withoutGenerateSecret. simpl.
  rewrite !copyPtr_id, analytics_round_trip, tokenUnits_round_trip.
  reflexivity.
Qed.

(** C2, as stated, fails.  A desired state that asks for a generated
    secret comes back without that field, which the describe response
    does not have; and with a nil pointer among the OAuth flows the create
    request is not built. *)
Lemma RoundTrips_fails :
  ~ RoundTrips (exampleResource (Some [Some "code"]) (Some true) None) /\
  ~ RoundTrips (exampleResource (Some [Some "code"; None]) None None).
Proof.
  split; intros H.
  - destruct (H exampleServerAssigned) as (req & cr' & Hreq & Hback & Hsame).
    vm_compute in Hreq. injection Hreq as <-.
    vm_compute in Hback. injection Hback as <-.
    vm_compute in Hsame. discriminate.
  - destruct (H exampleServerAssigned) as (req & cr' & Hreq & _).
    vm_compute in Hreq. discriminate.
Qed.

(** C2 (amended), at a resource that asks for a generated secret. *)
Lemma round_trip_but_GenerateSecret_witness :
  parametersWellFormed (exampleResource (Some [Some "code"]) (Some true) None) = true /\
  exists req cr',
    GenerateCreateUserPoolClientInput
      (exampleResource (Some [Some "code"]) (Some true) None) = Some req /\
    GenerateUserPoolClient (describeResponseOf req exampleServerAssigned) = Some cr' /\
    svcapitypes.UserPoolClientSpec.ForProvider (svcapitypes.UserPoolClient.Spec cr') =
    exampleParameters (Some [Some "code"]) None.
Proof.
  split; [reflexivity|].
  apply (round_trip_but_GenerateSecret
           (exampleResource (Some [Some "code"]) (Some true) None)).
  reflexivity.
Defined.

(** *** The describe and delete requests *)

(** C9.  The describe request and the delete request depend on the
    observed client and user pool identifiers only: two resources that
    agree on these two fields of [Status.AtProvider] get the same
    requests, whatever their desired states. *)
Theorem describe_delete_from_observed_identity (cr1 cr2 : svcapitypes.UserPoolClient.t) :
  let o1 := svcapitypes.UserPoolClientStatus.AtProvider
              (svcapitypes.UserPoolClient.Status cr1) in
  let o2 := svcapitypes.UserPoolClientStatus.AtProvider
              (svcapitypes.UserPoolClient.Status cr2) in
  O.ClientID o1 = O.ClientID o2 ->
  O.UserPoolID o1 = O.UserPoolID o2 ->
  GenerateDescribeUserPoolClientInput cr1 = GenerateDescribeUserPoolClientInput cr2 /\
  GenerateDeleteUserPoolClientInput cr1 = GenerateDeleteUserPoolClientInput cr2.
Proof.
  intros o1 o2 Hc Hu.
  unfold GenerateDescribeUserPoolClientInput, GenerateDeleteUserPoolClientInput.
  fold o1 o2. rewrite Hc, Hu. split; reflexivity.
Qed.

(** C9, at two resources with different desired states. *)
Lemma describe_delete_from_observed_identity_witness :
  exampleParameters (Some [Some "code"]) (Some true) <>
    exampleParameters None None /\
  GenerateDescribeUserPoolClientInput
    (exampleResource (Some [Some "code"]) (Some true) (Some "4h57kf1")) =
  GenerateDescribeUserPoolClientInput
    (exampleResource None None (Some "4h57kf1")) /\
  GenerateDeleteUserPoolClientInput
    (exampleResource (Some [Some "code"]) (Some true) (Some "4h57kf1")) =
  GenerateDeleteUserPoolClientInput
    (exampleResource None None (Some "4h57kf1")).
Proof.
  split; [discriminate|].
  apply describe_delete_from_observed_identity; reflexivity.
Defined.

(** The requests are the observed identifiers themselves. *)
Lemma GenerateDescribeUserPoolClientInput_fields (cr : svcapitypes.UserPoolClient.t) :
  let o := svcapitypes.UserPoolClientStatus.AtProvider
             (svcapitypes.UserPoolClient.Status cr) in
  svcsdk.DescribeUserPoolClientInput.ClientId
    (GenerateDescribeUserPoolClientInput cr) = O.ClientID o /\
  svcsdk.DescribeUserPoolClientInput.UserPoolId
    (GenerateDescribeUserPoolClientInput cr) = O.UserPoolID o.
Proof. simpl. rewrite !copyPtr_id. split; reflexivity. Qed.

(** *** Error classification *)

(** C8.  [IsNotFound] answers true exactly on a provider error whose code
    is ResourceNotFoundException, whatever its message; it answers false
    on a provider error with another code, on an error that is not a
    provider error, and on no error. *)
Theorem IsNotFound_iff_code (err : option error) :
  (IsNotFound err = true <->
   exists message, err = Some (AwsErr "ResourceNotFoundException" message)) /\
  (forall code m1 m2,
     IsNotFound (Some (AwsErr code m1)) = IsNotFound (Some (AwsErr code m2))) /\
  (forall code message,
     code <> "ResourceNotFoundException" ->
     IsNotFound (Some (AwsErr code message)) = false) /\
  (forall msg, IsNotFound (Some (Errorf msg)) = false) /\
  (forall cause msg, IsNotFound (Some (Wrap cause msg)) = false) /\
  IsNotFound None = false.
Proof.
  repeat split; try reflexivity.
  - destruct err as [[msg|cause msg|code message]|]; simpl; try discriminate.
    intros H. apply String.eqb_eq in H. subst code. exists message. reflexivity.
  - intros [message ->]. reflexivity.
  - intros code message Hne. simpl. apply String.eqb_neq. exact Hne.
Qed.

(** A look-alike message under another code is not a not-found error,
    and neither is a not-found error once it is wrapped. *)
Example IsNotFound_look_alike :
  IsNotFound (Some (AwsErr "InvalidParameterException"
                      "ResourceNotFoundException: client not found")) = false /\
  IsNotFound (Some (AwsErr "ResourceNotFoundException" "")) = true /\
  IsNotFound (Some (Wrap (AwsErr "ResourceNotFoundException" "gone")
                      "cannot describe")) = false.
Proof. repeat split. Qed.

(** *** Further properties of the conversions *)

Lemma analytics_round_trip_SDK (a : option svcsdk.AnalyticsConfigurationType.t) :
  copyStruct analyticsToSDK (copyStruct analyticsFromSDK a) = a.
Proof.
  destruct a as [[]|]; simpl; [|reflexivity].
  unfold analyticsToSDK; simpl. rewrite !copyPtr_id. reflexivity.
Qed.

Lemma tokenUnits_round_trip_SDK (a : option svcsdk.TokenValidityUnitsType.t) :
  copyStruct tokenUnitsToSDK (copyStruct tokenUnitsFromSDK a) = a.
Proof.
  destruct a as [[]|]; simpl; [|reflexivity].
  unfold tokenUnitsToSDK; simpl. rewrite !copyPtr_id. reflexivity.
Qed.

(** A conversion that returned has met no nil element. *)
Lemma GenerateUserPoolClient_returned (resp : svcsdk.DescribeUserPoolClientOutput.t) :
  is_Some (GenerateUserPoolClient resp) -> inDomain resp = true.
Proof.
  destruct resp as [[u|]]; unfold GenerateUserPoolClient, inDomain; simpl.
  - rewrite !bind_copySlice_is_Some, !andb_true_iff.
    intros H. decompose [and] H. repeat split; assumption.
  - intros [? ?]. discriminate.
Qed.

Lemma GenerateCreateUserPoolClientInput_returned (cr : svcapitypes.UserPoolClient.t) :
  is_Some (GenerateCreateUserPoolClientInput cr) -> parametersWellFormed cr = true.
Proof.
  destruct cr as [[p] [o]].
  unfold GenerateCreateUserPoolClientInput, parametersWellFormed; simpl.
  rewrite !bind_copySlice_is_Some, !andb_true_iff.
  intros H. decompose [and] H. repeat split; assumption.
Qed.

Lemma GenerateUpdateUserPoolClientInput_returned (cr : svcapitypes.UserPoolClient.t) :
  is_Some (GenerateUpdateUserPoolClientInput cr) -> parametersWellFormed cr = true.
Proof.
  destruct cr as [[p] [o]].
  unfold GenerateUpdateUserPoolClientInput, parametersWellFormed; simpl.
  rewrite !bind_copySlice_is_Some, !andb_true_iff.
  intros H. decompose [and] H. repeat split; assumption.
Qed.

(** Splitting well-formedness into one fact per slice, keeping it. *)
Ltac slice_facts H :=
  let H' := fresh "Hwf" in
  pose proof H as H'; simpl in H';
  repeat (apply andb_prop in H'; destruct H' as [? H']).

(** X8.  The copy loop returns exactly on the slices without a nil
    element, and then returns the slice it was given: same length, same
    order, same strings; the nil slice stays nil and the empty slice
    stays empty. *)
Theorem copySlice_returns_iff (xs ys : StringSlice) :
  copySlice xs = Some ys <-> elementsNonNil xs = true /\ ys = xs.
Proof.
  destruct (elementsNonNil xs) eqn:E.
  - rewrite (copySlice_nonNil xs E). split.
    + intros [= <-]. split; reflexivity.
    + intros [_ ->]. reflexivity.
  - rewrite (copySlice_nil xs E). split.
    + discriminate.
    + intros [? _]. discriminate.
Qed.

(** X9.  The create conversion and the update conversion return exactly
    on the resources whose desired state has no nil element pointer in
    its eight string slices; on every other resource both panic. *)
Theorem Generate_requests_domain (cr : svcapitypes.UserPoolClient.t) :
  (is_Some (GenerateCreateUserPoolClientInput cr) <-> parametersWellFormed cr = true) /\
  (is_Some (GenerateUpdateUserPoolClientInput cr) <-> parametersWellFormed cr = true).
Proof.
  split; split.
  - apply GenerateCreateUserPoolClientInput_returned.
  - destruct cr as [[p] [o]]. intros H. unfold parametersWellFormed in H.
    unfold GenerateCreateUserPoolClientInput. simpl in *.
    copy_slices H. eauto.
  - apply GenerateUpdateUserPoolClientInput_returned.
  - destruct cr as [[p] [o]]. intros H. unfold parametersWellFormed in H.
    unfold GenerateUpdateUserPoolClientInput. simpl in *.
    copy_slices H. eauto.
Qed.

(** X10.  The create request and the update request of one resource
    carry the same desired state: the eighteen fields they share by name
    are equal. *)
Theorem create_update_same_desired_state
    (cr : svcapitypes.UserPoolClient.t) (c : CI.t) (u : UI.t) :
  GenerateCreateUserPoolClientInput cr = Some c ->
  GenerateUpdateUserPoolClientInput cr = Some u ->
  SameDesiredState c u.
Proof.
  intros Hc Hu.
  assert (Hwf : parametersWellFormed cr = true)
    by (apply GenerateCreateUserPoolClientInput_returned; eauto).
  destruct cr as [[p] [o]]. unfold parametersWellFormed in Hwf.
  unfold GenerateCreateUserPoolClientInput in Hc.
  unfold GenerateUpdateUserPoolClientInput in Hu.
  simpl in *.
  repeat (apply andb_prop in Hwf; destruct Hwf as [? Hwf]).
  rewrite !copySlice_nonNil in Hc by assumption.
  rewrite !copySlice_nonNil in Hu by assumption.
  simpl in *. injection Hc as <-. injection Hu as <-.
  unfold SameDesiredState. simpl. repeat split.
Qed.

(** X11.  Whatever the response, a resource the describe conversion
    returns has no nil element pointer in the string slices of its
    desired state, and no [GenerateSecret]: the create and update
    conversions do not panic on it. *)
Theorem GenerateUserPoolClient_well_formed
    (resp : svcsdk.DescribeUserPoolClientOutput.t) (cr : svcapitypes.UserPoolClient.t) :
  GenerateUserPoolClient resp = Some cr ->
  parametersWellFormed cr = true /\
  P.GenerateSecret
    (svcapitypes.UserPoolClientSpec.ForProvider (svcapitypes.UserPoolClient.Spec cr)) = None /\
  is_Some (GenerateCreateUserPoolClientInput cr) /\
  is_Some (GenerateUpdateUserPoolClientInput cr).
Proof.
  intros H.
  assert (Hdom : inDomain resp = true)
    by (apply GenerateUserPoolClient_returned; eauto).
  destruct resp as [[u|]]; [|discriminate].
  unfold inDomain in Hdom. unfold GenerateUserPoolClient in H. simpl in *.
  slice_facts Hdom.
  rewrite !copySlice_nonNil in H by assumption.
  simpl in H. injection H as <-.
  unfold parametersWellFormed, GenerateCreateUserPoolClientInput,
    GenerateUpdateUserPoolClientInput. simpl.
  rewrite !copySlice_nonNil by assumption. simpl.
  repeat split; eauto.
Qed.

(** X12.  Describing and then updating changes nothing: the update
    request built from the resource that the describe conversion returns
    repeats the described user pool client in every one of its twenty
    fields, the client and user pool identifiers included. *)
Theorem describe_then_update_repeats (resp : svcsdk.DescribeUserPoolClientOutput.t) :
  inDomain resp = true ->
  exists u cr r,
    svcsdk.DescribeUserPoolClientOutput.UserPoolClient resp = Some u /\
    GenerateUserPoolClient resp = Some cr /\
    GenerateUpdateUserPoolClientInput cr = Some r /\
    UpdateRepeats r u.
Proof.
  destruct resp as [[u|]]; unfold inDomain; simpl; [|discriminate].
  intros H. slice_facts H.
  exists u. unfold GenerateUserPoolClient. simpl.
  rewrite !copySlice_nonNil by assumption. simpl.
  eexists. eexists. split; [reflexivity|]. split; [reflexivity|].
  unfold GenerateUpdateUserPoolClientInput. simpl.
  rewrite !copySlice_nonNil by assumption. simpl.
  split; [reflexivity|].
  unfold UpdateRepeats. simpl.
  rewrite !copyPtr_id, analytics_round_trip_SDK, tokenUnits_round_trip_SDK.
  repeat split.
Qed.

(** X13.  The describe request and the delete request built from a
    resource that the describe conversion returned address the client
    and the user pool of the response it was converted from. *)
Theorem describe_then_describe_same_identity
    (resp : svcsdk.DescribeUserPoolClientOutput.t) (u : U.t)
    (cr : svcapitypes.UserPoolClient.t) :
  svcsdk.DescribeUserPoolClientOutput.UserPoolClient resp = Some u ->
  GenerateUserPoolClient resp = Some cr ->
  GenerateDescribeUserPoolClientInput cr =
    svcsdk.DescribeUserPoolClientInput.mk (U.ClientId u) (U.UserPoolId u) /\
  GenerateDeleteUserPoolClientInput cr =
    svcsdk.DeleteUserPoolClientInput.mk (U.ClientId u) (U.UserPoolId u).
Proof.
  intros Hu H.
  assert (Hdom : inDomain resp = true)
    by (apply GenerateUserPoolClient_returned; eauto).
  destruct resp as [[u'|]]; [|discriminate].
  simpl in Hu. injection Hu as ->.
  unfold inDomain in Hdom. unfold GenerateUserPoolClient in H. simpl in *.
  slice_facts Hdom.
  rewrite !copySlice_nonNil in H by assumption.
  simpl in H. injection H as <-.
  unfold GenerateDescribeUserPoolClientInput, GenerateDeleteUserPoolClientInput.
  simpl. rewrite !copyPtr_id. split; reflexivity.
Qed.

(** The create request depends on the desired state only. *)
Lemma create_from_desired_state_only (cr1 cr2 : svcapitypes.UserPoolClient.t) :
  svcapitypes.UserPoolClient.Spec cr1 = svcapitypes.UserPoolClient.Spec cr2 ->
  GenerateCreateUserPoolClientInput cr1 = GenerateCreateUserPoolClientInput cr2.
Proof.
  unfold GenerateCreateUserPoolClientInput. intros ->. reflexivity.
Qed.

(** X14.  The update request depends on the desired state without
    [GenerateSecret] and on the observed client and user pool identifiers
    only: it is the same for two resources that agree on these, whether
    or not they ask for a generated secret and whatever else was observed
    of them. *)
Theorem update_ignores_GenerateSecret (cr1 cr2 : svcapitypes.UserPoolClient.t) :
  let p1 := svcapitypes.UserPoolClientSpec.ForProvider (svcapitypes.UserPoolClient.Spec cr1) in
  let p2 := svcapitypes.UserPoolClientSpec.ForProvider (svcapitypes.UserPoolClient.Spec cr2) in
  let o1 := svcapitypes.UserPoolClientStatus.AtProvider (svcapitypes.UserPoolClient.Status cr1) in
  let o2 := svcapitypes.UserPoolClientStatus.AtProvider (svcapitypes.UserPoolClient.Status cr2) in
  withoutGenerateSecret p1 = withoutGenerateSecret p2 ->
  O.ClientID o1 = O.ClientID o2 ->
  O.UserPoolID o1 = O.UserPoolID o2 ->
  GenerateUpdateUserPoolClientInput cr1 = GenerateUpdateUserPoolClientInput cr2.
Proof.
  destruct cr1 as [[p1] [o1]], cr2 as [[p2] [o2]]. simpl.
  destruct p1, p2. unfold withoutGenerateSecret. simpl.
  intros Hp Hc Hu. injection Hp as -> -> -> -> -> -> -> -> -> -> -> -> -> -> -> -> -> ->.
  unfold GenerateUpdateUserPoolClientInput. simpl. rewrite Hc, Hu. reflexivity.
Qed.

(** *** The further properties at the example objects *)

(** X10, at a resource with one OAuth flow that asks for a generated
    secret. *)
Lemma create_update_same_desired_state_witness :
  exists c u,
    GenerateCreateUserPoolClientInput
      (exampleResource (Some [Some "code"]) (Some true) (Some "4h57kf1")) = Some c /\
    GenerateUpdateUserPoolClientInput
      (exampleResource (Some [Some "code"]) (Some true) (Some "4h57kf1")) = Some u /\
    SameDesiredState c u.
Proof.
  eexists. eexists.
  split; [vm_compute; reflexivity|]. split; [vm_compute; reflexivity|].
  eapply (create_update_same_desired_state
            (exampleResource (Some [Some "code"]) (Some true) (Some "4h57kf1")));
    vm_compute; reflexivity.
Defined.

(** X11, at a response with one OAuth flow. *)
Lemma GenerateUserPoolClient_well_formed_witness :
  exists cr,
    GenerateUserPoolClient (exampleResponse (Some [Some "code"])) = Some cr /\
    parametersWellFormed cr = true /\
    P.GenerateSecret
      (svcapitypes.UserPoolClientSpec.ForProvider (svcapitypes.UserPoolClient.Spec cr)) = None /\
    is_Some (GenerateCreateUserPoolClientInput cr) /\
    is_Some (GenerateUpdateUserPoolClientInput cr).
Proof.
  eexists. split; [vm_compute; reflexivity|].
  apply (GenerateUserPoolClient_well_formed (exampleResponse (Some [Some "code"]))).
  vm_compute. reflexivity.
Defined.

(** X12, at a response with one OAuth flow. *)
Lemma describe_then_update_repeats_witness :
  inDomain (exampleResponse (Some [Some "code"])) = true /\
  exists u cr r,
    svcsdk.DescribeUserPoolClientOutput.UserPoolClient
      (exampleResponse (Some [Some "code"])) = Some u /\
    GenerateUserPoolClient (exampleResponse (Some [Some "code"])) = Some cr /\
    GenerateUpdateUserPoolClientInput cr = Some r /\
    UpdateRepeats r u.
Proof.
  split; [reflexivity|].
  apply describe_then_update_repeats. reflexivity.
Defined.

(** X13, at a response with one OAuth flow. *)
Lemma describe_then_describe_same_identity_witness :
  exists cr,
    GenerateUserPoolClient (exampleResponse (Some [Some "code"])) = Some cr /\
    GenerateDescribeUserPoolClientInput cr =
      svcsdk.DescribeUserPoolClientInput.mk (Some "4h57kf1") (Some "eu-west-1_AbCdEf") /\
    GenerateDeleteUserPoolClientInput cr =
      svcsdk.DeleteUserPoolClientInput.mk (Some "4h57kf1") (Some "eu-west-1_AbCdEf").
Proof.
  eexists. split; [vm_compute; reflexivity|].
  exact (describe_then_describe_same_identity
           (exampleResponse (Some [Some "code"])) _ _ eq_refl eq_refl).
Defined.

(** X14, at two resources that differ in [GenerateSecret] only. *)
Lemma update_ignores_GenerateSecret_witness :
  exampleParameters (Some [Some "code"]) (Some true) <>
    exampleParameters (Some [Some "code"]) None /\
  GenerateUpdateUserPoolClientInput
    (exampleResource (Some [Some "code"]) (Some true) (Some "4h57kf1")) =
  GenerateUpdateUserPoolClientInput
    (exampleResource (Some [Some "code"]) None (Some "4h57kf1")).
Proof.
  split; [discriminate|].
  apply update_ignores_GenerateSecret; reflexivity.
Defined.

End Conversions.
